(** * RNAGet compliance suite: the aggregator, the report converter and the
      argument checks of the [report] command (compliance_suite/cli.py)

    A shallow embedding of [scan_for_errors], [convert_report_format],
    [test_report] and [report], with the properties of the specification
    stated and settled against it.

    Conventions.
    - A Python [str] is a Rocq [string]; a character is read as the Unicode
      code point of the same number (0..255).
    - A Python [dict] is an insertion-ordered association list ([Dict]).
    - A Python [int] is a [Z].
    - Exceptions and mutation are explicit: a computation takes a state and
      gives back an outcome (an exception or a value) with the state it
      left behind. *)

From Stdlib Require Import String Ascii List ZArith Bool Lia.
Import ListNotations.
Local Open Scope string_scope.
Local Open Scope Z_scope.
Local Open Scope list_scope.

(** ** Python dictionaries *)

(** Keys are strings; the order of the list is the insertion order. *)
Definition dict (V : Type) : Type := list (string * V).

Module Dict.

(** [{}] *)
Definition empty {V : Type} : dict V := [].

(** [d.keys()] *)
Definition keys {V : Type} (d : dict V) : list string := map fst d.

(** [d[k]]; [None] stands for the KeyError. *)
Fixpoint get {V : Type} (d : dict V) (k : string) : option V :=
  match d with
  | [] => None
  | (k', v) :: d' => if String.eqb k' k then Some v else get d' k
  end.

(** [d[k] = v]: an existing key keeps its place, a new key goes last. *)
Fixpoint set {V : Type} (d : dict V) (k : string) (v : V) : dict V :=
  match d with
  | [] => [(k, v)]
  | (k', v') :: d' =>
      if String.eqb k' k then (k', v) :: d' else (k', v') :: set d' k v
  end.

End Dict.

(** Iterating over a [str] yields its characters as one-character strings. *)
Fixpoint iter_str (s : string) : list string :=
  match s with
  | EmptyString => []
  | String c s' => String c EmptyString :: iter_str s'
  end.

(** [x in l] for a list of strings. *)
Definition str_in (x : string) (l : list string) : bool :=
  existsb (String.eqb x) l.

(** ** The raw result tree *)

(** A CaseRecord: keys "name", "description", "summary", "status", "audit". *)
Record CaseRecord : Type := mkCaseRecord {
  cr_name : string;
  cr_description : string;
  cr_summary : string;
  cr_status : Z;
  cr_audit : list string
}.

(** A TestRecord: keys "name", "description", "text", "result", "parents";
    [tr_cases] is [test["message"]["api_component"]["cases"]]. *)
Record TestRecord : Type := mkTestRecord {
  tr_name : string;
  tr_description : string;
  tr_text : string;
  tr_result : Z;
  tr_parents : list string;
  tr_cases : list CaseRecord
}.

(** One entry of the high-level summary: [{'result': ..., 'name': ...}]. *)
Record SummaryEntry : Type := mkSummaryEntry {
  result : Z;
  name : string
}.

(** The dictionary handed to the aggregator and to the converter.
    [high_level_summary] is [None] while the key is absent. *)
Record Json : Type := mkJson {
  server_name : string;
  base_url : string;
  test_results : dict (dict (list TestRecord));
  high_level_summary : option (dict SummaryEntry)
}.

(** [json["high_level_summary"] = h] *)
Definition set_high_level_summary (json : Json) (h : dict SummaryEntry) : Json :=
  {| server_name := server_name json;
     base_url := base_url json;
     test_results := test_results json;
     high_level_summary := Some h |}.

(** ** Exceptions and the state monad *)

Inductive exn : Type :=
| KeyError (key : string)
| ValueError (msg : string)
| ArgumentException (msg : string)
| UserConfigException (msg : string)
| FileNotFoundError (msg : string).

(** A computation over a mutable state [S]: it ends with an exception or a
    value, and in both cases leaves a state behind. *)
Definition M (S A : Type) : Type := S -> (exn + A) * S.

Definition ret {S A : Type} (a : A) : M S A := fun s => (inr a, s).

Definition raise {S A : Type} (e : exn) : M S A := fun s => (inl e, s).

Definition bind {S A B : Type} (m : M S A) (f : A -> M S B) : M S B :=
  fun s =>
    match m s with
    | (inl e, s') => (inl e, s')
    | (inr a, s') => f a s'
    end.

Definition get_state {S : Type} : M S S := fun s => (inr s, s).

Definition put_state {S : Type} (s : S) : M S unit := fun _ => (inr tt, s).

Declare Scope py_scope.
Delimit Scope py_scope with py.
Notation "x <- m ;; k" := (bind m (fun x => k))
  (at level 61, m at next level, right associativity) : py_scope.
Notation "m ;; k" := (bind m (fun _ => k))
  (at level 61, right associativity) : py_scope.
Local Open Scope py_scope.

(** [d[k]] inside a computation. *)
Definition subscript {S V : Type} (d : dict V) (k : string) : M S V :=
  match Dict.get d k with
  | Some v => ret v
  | None => raise (KeyError k)
  end.

(** [for x in xs: body x] *)
Fixpoint for_each {S X : Type} (xs : list X) (body : X -> M S unit) : M S unit :=
  match xs with
  | [] => ret tt
  | x :: xs' => body x ;; for_each xs' body
  end.

(** [for x in xs: body x], where each round appends objects to one list of
    the enclosing object; the computation returns what was appended. *)
Fixpoint for_collect {S X B : Type} (xs : list X) (body : X -> M S (list B))
  : M S (list B) :=
  match xs with
  | [] => ret []
  | x :: xs' =>
      bs <- body x ;;
      bs' <- for_collect xs' body ;;
      ret (bs ++ bs')
  end.

(** ** scan_for_errors *)

(** [available_tests = ('project_get')]: without a trailing comma the
    parentheses only group, so the value is the string itself. *)
Definition available_tests : string := "project_get".

(** The state of [scan_for_errors]: the local dictionary and the argument,
    which is mutated in place. The assignment on line 68 stores a reference
    to the local dictionary; no exit lies between an update of the local
    dictionary and the next assignment, so storing its value is the same. *)
Record ScanState : Type := mkScanState {
  local_summary : dict SummaryEntry;
  scanned : Json
}.

(** Lines 55-62: [result = 1], then the loop over the tests of the object.
    The body of the [if] is a string literal, an expression statement that
    does nothing, so neither branch changes [result]. *)
Definition rollup (high_level_name : string) (server_tests : list TestRecord) : Z :=
  fold_left
    (fun result test =>
       if str_in high_level_name (tr_parents test) then result else result)
    server_tests 1.

(** Lines 55-66: one round of the loop over [available_tests]. *)
Definition summarise_name (server_tests : list TestRecord)
    (high_level_name : string) : M ScanState unit :=
  st <- get_state ;;
  put_state
    {| local_summary :=
         Dict.set (local_summary st) high_level_name
           {| result := rollup high_level_name server_tests;
              name := high_level_name |};
       scanned := scanned st |}.

(** Line 68. *)
Definition attach_summary : M ScanState unit :=
  st <- get_state ;;
  put_state
    {| local_summary := local_summary st;
       scanned := set_high_level_summary (scanned st) (local_summary st) |}.

(** Lines 51-68: one round of the loop over the object ids. *)
Definition scan_object (obj_type obj_id : string) : M ScanState unit :=
  st <- get_state ;;
  objects <- subscript (test_results (scanned st)) obj_type ;;
  server_tests <- subscript objects obj_id ;;
  for_each (iter_str available_tests) (summarise_name server_tests) ;;
  attach_summary.

(** Lines 50-68: one round of the loop over the object types. *)
Definition scan_object_type (obj_type : string) : M ScanState unit :=
  st <- get_state ;;
  objects <- subscript (test_results (scanned st)) obj_type ;;
  for_each (Dict.keys objects) (scan_object obj_type).

(** The object types the aggregator walks (line 49). *)
Definition scanned_types : list string := ["projects"; "studies"; "expressions"].

(** [scan_for_errors(json)]: the dictionary after the call, and the exception
    the call ended with, if any. *)
Definition scan_for_errors (json : Json) : Json * option exn :=
  let '(r, st) :=
    for_each scanned_types scan_object_type
      {| local_summary := Dict.empty; scanned := json |} in
  (scanned st, match r with inl e => Some e | inr _ => None end).

(** ** The standardized report (ga4gh.testbed.report)

    The report classes belong to a library outside this repository. A record
    below holds what the converter's calls store in an object; a field the
    converter never sets is [None]. *)

Definition timestamp : Type := string.

Inductive Status : Type := PASS | SKIP | FAIL | UNKNOWN.

Record Case : Type := mkCase {
  case_name : string;
  case_description : string;
  case_message : string;
  log_messages : list string;
  case_status : option Status;
  case_start_time : option timestamp;
  case_end_time : option timestamp
}.

Record Test : Type := mkTest {
  test_name : string;
  test_description : string;
  test_message : string;
  test_start_time : option timestamp;
  test_end_time : option timestamp;
  cases : list Case
}.

Record Phase : Type := mkPhase {
  phase_name : string;
  phase_start_time : option timestamp;
  phase_end_time : option timestamp;
  tests : list Test
}.

Record Report : Type := mkReport {
  testbed_name : string;
  platform_name : string;
  input_parameters : dict string;
  report_start_time : option timestamp;
  report_end_time : option timestamp;
  phases : list Phase;
  finalized : bool
}.

(** ** convert_report_format *)

(** The wall clock: [clk n] is what the [n]-th reading of the clock returns.
    The state of a conversion is the number of readings made so far. *)
Definition clock : Type := nat -> timestamp.

(** [set_start_time_now()] and [set_end_time_now()] read the clock. *)
Definition now (clk : clock) : M nat timestamp :=
  fun n => (inr (clk n), S n).

(** Lines 293-300: the chain of [if]/[elif] on [case["status"]]; it has no
    [else], so with any other code no setter is called. *)
Definition status_of_code (code : Z) : option Status :=
  if code =? 1 then Some PASS
  else if code =? 0 then Some SKIP
  else if code =? -1 then Some FAIL
  else if code =? 2 then Some UNKNOWN
  else None.

(** Lines 289-290: [add_log_message] appends to the log of the case. *)
Definition add_log_messages (audit : list string) : list string :=
  fold_left (fun logs log_message => logs ++ [log_message]) audit [].

(** Lines 281-302. *)
Definition convert_case (clk : clock) (case : CaseRecord) : M nat Case :=
  let logs := add_log_messages (cr_audit case) in
  let status := status_of_code (cr_status case) in
  end_time <- now clk ;;
  ret {| case_name := cr_name case;
         case_description := cr_description case;
         case_message := cr_summary case;
         log_messages := logs;
         case_status := status;
         case_start_time := None;
         case_end_time := Some end_time |}.

(** Lines 272-304. *)
Definition convert_test (clk : clock) (test : TestRecord) : M nat Test :=
  ga4gh_cases <-
    (if negb (tr_result test =? 0)
     then for_collect (tr_cases test)
            (fun case => ga4gh_case <- convert_case clk case ;; ret [ga4gh_case])
     else ret []) ;;
  end_time <- now clk ;;
  ret {| test_name := tr_name test;
         test_description := tr_description test;
         test_message := tr_text test;
         test_start_time := None;
         test_end_time := Some end_time;
         cases := ga4gh_cases |}.

(** Lines 263-304: the tests one object adds to the phase. The converter's
    own [available_tests] (line 249) is the same string as the aggregator's. *)
Definition convert_object (clk : clock) (server_tests : list TestRecord)
  : M nat (list Test) :=
  for_collect (iter_str available_tests)
    (fun high_level_name =>
       for_collect server_tests
         (fun test => ga4gh_test <- convert_test clk test ;; ret [ga4gh_test])).

(** Lines 259-306. *)
Definition convert_phase (clk : clock) (json : Json) (obj_type : string)
  : M nat Phase :=
  start_time <- now clk ;;
  objects <- subscript (test_results json) obj_type ;;
  ga4gh_tests <-
    for_collect (Dict.keys objects)
      (fun obj_id =>
         objects <- subscript (test_results json) obj_type ;;
         server_tests <- subscript objects obj_id ;;
         convert_object clk server_tests) ;;
  end_time <- now clk ;;
  ret {| phase_name := obj_type;
         phase_start_time := Some start_time;
         phase_end_time := Some end_time;
         tests := ga4gh_tests |}.

(** The object types the converter walks (line 256). *)
Definition object_types : list string :=
  ["projects"; "studies"; "expressions"; "continuous"].

(** [convert_report_format(json)]; [finalize()] is recorded as the flag. *)
Definition convert_report_format (clk : clock) (json : Json) : M nat Report :=
  start_time <- now clk ;;
  ga4gh_phases <-
    for_collect object_types
      (fun obj_type => ga4gh_phase <- convert_phase clk json obj_type ;;
                       ret [ga4gh_phase]) ;;
  end_time <- now clk ;;
  ret {| testbed_name := "rnaget-compliance-suite";
         platform_name := server_name json;
         input_parameters := Dict.set Dict.empty "base_url" (base_url json);
         report_start_time := Some start_time;
         report_end_time := Some end_time;
         phases := ga4gh_phases;
         finalized := true |}.

(** *** Reports up to timestamps *)

Definition erase_case (c : Case) : Case :=
  {| case_name := case_name c;
     case_description := case_description c;
     case_message := case_message c;
     log_messages := log_messages c;
     case_status := case_status c;
     case_start_time := None;
     case_end_time := None |}.

Definition erase_test (t : Test) : Test :=
  {| test_name := test_name t;
     test_description := test_description t;
     test_message := test_message t;
     test_start_time := None;
     test_end_time := None;
     cases := map erase_case (cases t) |}.

Definition erase_phase (p : Phase) : Phase :=
  {| phase_name := phase_name p;
     phase_start_time := None;
     phase_end_time := None;
     tests := map erase_test (tests p) |}.

Definition erase_report (r : Report) : Report :=
  {| testbed_name := testbed_name r;
     platform_name := platform_name r;
     input_parameters := input_parameters r;
     report_start_time := None;
     report_end_time := None;
     phases := map erase_phase (phases r);
     finalized := finalized r |}.

(** What a call of the converter is seen to do, timestamps aside: the
    exception it raises or the report it returns. *)
Definition converted (clk : clock) (json : Json) (n : nat) : exn + Report :=
  match fst (convert_report_format clk json n) with
  | inl e => inl e
  | inr r => inr (erase_report r)
  end.

(** ** The report command *)

Local Open Scope string_scope.

(** [c.isdigit()] for a character below 256: the decimal digits and the
    superscript digits U+00B2, U+00B3 and U+00B9, the code points of that
    range whose Unicode Numeric_Type is Decimal or Digit. *)
Definition isdigit_char (c : ascii) : bool :=
  let n := N_of_ascii c in
  ((48 <=? n) && (n <=? 57) || (n =? 178) || (n =? 179) || (n =? 185))%N.

(** [s.isdigit()]: every character is a digit and there is at least one. *)
Definition isdigit (s : string) : bool :=
  match s with
  | EmptyString => false
  | String _ _ => forallb isdigit_char (list_ascii_of_string s)
  end.

(** The value of a decimal digit, [None] for any other character. *)
Definition decimal_value (c : ascii) : option Z :=
  let n := N_of_ascii c in
  if ((48 <=? n) && (n <=? 57))%N then Some (Z.of_N n - 48) else None.

(** [int(s)] for a string that passed [isdigit()]: it has no sign, blank or
    underscore, so [int] returns the number it spells when every character
    is a decimal digit and raises ValueError otherwise. *)
Definition int_of_digits (s : string) : option Z :=
  match s with
  | EmptyString => None
  | String _ _ =>
      fold_left
        (fun acc c =>
           match acc, decimal_value c with
           | Some a, Some d => Some (10 * a + d)
           | _, _ => None
           end)
        (list_ascii_of_string s) (Some 0)
  end.

(** The options of the command as click hands them over; [user_config] is
    [None] when the option is not given. *)
Record Args : Type := mkArgs {
  user_config : option string;
  output_dir : string;
  serve : bool;
  uptime : string;
  no_tar : bool;
  force : bool;
  pretty : bool
}.

(** [not user_config]: [None] and the empty string are false. *)
Definition not_given (o : option string) : bool :=
  match o with
  | None => true
  | Some EmptyString => true
  | Some (String _ _) => false
  end.

(** What [test_report] reads of the parsed configuration [user_config.d]. *)
Record Config : Type := mkConfig {
  cfg_server_name : string;
  cfg_token : option string
}.

(** The collaborators outside cli.py: the clock, the configuration parser
    (with what it raises), os.path, and the Runner with the final
    dictionary it generates. *)
Record World : Type := mkWorld {
  wall_clock : clock;
  parse_and_validate : string -> exn + Config;
  basename : string -> string;
  dirname : string -> string;
  path_exists : string -> bool;
  run_tests : Config -> Json
}.

(** What the command is seen to do, in order. *)
Inductive event : Type :=
| Log (msg : string)
| Echo_usage
| Print (msg : string)
| Rmtree (path : string)
| Copytree (dst : string)
| Set_authorization (value : string)
| Run_tests (server : string)
| Write_results (dir : string) (formatted : bool) (r : Report)
| Make_tarball (archive dir arcname : string)
| Render_html (dir : string)
| Serve (dir : string) (seconds : Z).

(** How the process ends: [sys.exit(code)], a normal return of the command,
    or an exception no handler of [report] catches. *)
Inductive outcome : Type :=
| Exit (code : Z)
| Returned
| Uncaught (e : exn).

Definition emit (e : event) : M (list event) unit :=
  fun trace => (inr tt, (trace ++ [e])%list).

(** [if c: raise e] *)
Definition raise_if {S : Type} (c : bool) (e : exn) : M S unit :=
  if c then raise e else ret tt.

(** [if c: m] *)
Definition when {S : Type} (c : bool) (m : M S unit) : M S unit :=
  if c then m else ret tt.

(** A collaborator's result, raised when it is an exception. *)
Definition of_sum {S A : Type} (r : exn + A) : M S A :=
  match r with
  | inl e => raise e
  | inr a => ret a
  end.

(** [test_report(user_config)], lines 224-239. *)
Definition test_report (w : World) (cfg : Config) : M (list event) Report :=
  when (negb (not_given (cfg_token cfg)))
    (emit (Set_authorization
             ("Bearer " ++ match cfg_token cfg with Some t => t | None => "" end))) ;;
  emit (Log ("starting tests for server: " ++ cfg_server_name cfg)) ;;
  emit (Run_tests (cfg_server_name cfg)) ;;
  of_sum (fst (convert_report_format (wall_clock w) (run_tests w cfg) 0%nat)).

(** The [try] block of [report], lines 106-198. *)
Definition report_body (w : World) (a : Args) : M (list event) unit :=
  raise_if (not_given (user_config a))
    (ArgumentException
       ("No user config file provided. Specify path to yaml file with " ++ "-c")) ;;
  let path := match user_config a with Some p => p | None => "" end in
  emit (Log ("parsing config file: " ++ path)) ;;
  raise_if (negb (isdigit (uptime a)))
    (ArgumentException "Server uptime is not a valid integer.") ;;
  cfg <- of_sum (parse_and_validate w path) ;;
  let output_dirname := basename w (output_dir a) in
  let output_base_dir := dirname w (output_dir a) in
  let out :=
    if String.eqb output_base_dir "" then "./" ++ output_dirname else output_dir a in
  let base :=
    if String.eqb output_base_dir "" then "." else output_base_dir in
  raise_if (negb (path_exists w base))
    (FileNotFoundError
       ("cannot create output directory at " ++ out ++ ", base directory "
        ++ base ++ " does not exist")) ;;
  raise_if (negb (force a)
            && (path_exists w out || path_exists w (out ++ ".tar.gz")))
    (ArgumentException
       ("cannot create output directory at " ++ out ++ ", directory/archive "
        ++ "already exists")) ;;
  when (force a && path_exists w out) (emit (Rmtree out)) ;;
  emit (Copytree out) ;;
  final_report <- test_report w cfg ;;
  emit (Write_results out (pretty a) final_report) ;;
  emit (Log ("all tests complete, results json available at " ++ out ++ "/"
             ++ "results.json")) ;;
  when (negb (no_tar a))
    (emit (Log "creating gzipped tarball of results directory") ;;
     emit (Make_tarball (out ++ ".tar.gz") out (basename w output_dirname)) ;;
     emit (Log ("gzipped tarball of results directory available " ++ "at "
                ++ out ++ ".tar.gz"))) ;;
  emit (Render_html out) ;;
  if serve a then
    emit (Log ("serving results as HTML report from output " ++ "directory "
               ++ out)) ;;
    match int_of_digits (uptime a) with
    | Some seconds => emit (Serve out seconds)
    | None => raise (ValueError "invalid literal for int() with base 10")
    end
  else
    emit (Log ("Report results can be served as HTML from results "
               ++ "directory " ++ out ++ ". (python3) -> "
               ++ "python -m http.server 5000 OR (python2) -> python "
               ++ "-m SimpleHTTPServer 5000")).

(** The handlers of [report], lines 202-216: usage, the message, exit 1. *)
Definition handle (trace : list event) (e : exn) : list event * outcome :=
  match e with
  | ArgumentException msg =>
      ((trace ++ [Echo_usage; Print (String "010" "" ++ msg ++ String "010" "")])%list,
       Exit 1)
  | UserConfigException msg =>
      ((trace ++ [Echo_usage;
                  Print ("Error with YAML file: " ++ msg ++ String "010" "")])%list,
       Exit 1)
  | FileNotFoundError msg =>
      ((trace ++ [Echo_usage; Print (String "010" "" ++ msg ++ String "010" "")])%list,
       Exit 1)
  | KeyError _ | ValueError _ => (trace, Uncaught e)
  end.

(** [report(user_config, output_dir, serve, uptime, no_tar, force, pretty)] *)
Definition report (w : World) (a : Args) : list event * outcome :=
  match (emit (Log "starting RNAGet compliance testing") ;; report_body w a) [] with
  | (inr _, trace) => (trace, Returned)
  | (inl e, trace) => handle trace e
  end.

Local Open Scope Z_scope.
Local Open Scope list_scope.

(** ** Relations between the raw tree and the report *)

(** The Case [k] is the conversion of the CaseRecord [c]. *)
Definition converts_to (c : CaseRecord) (k : Case) : Prop :=
  case_name k = cr_name c /\
  case_description k = cr_description c /\
  case_message k = cr_summary c /\
  log_messages k = cr_audit c /\
  case_status k = status_of_code (cr_status c).

(** The Test [T] is the conversion of the TestRecord [t]: its Cases are the
    conversions of the CaseRecords unless the result is 0. *)
Definition test_converts_to (t : TestRecord) (T : Test) : Prop :=
  test_name T = tr_name t /\
  test_description T = tr_description t /\
  test_message T = tr_text t /\
  if tr_result t =? 0 then cases T = []
  else Forall2 converts_to (tr_cases t) (cases T).

(** The Tests [Ts] are what one object adds to its phase: one run of
    conversions of its TestRecords per round of the loop on line 267. *)
Definition object_converts_to (server_tests : list TestRecord) (Ts : list Test)
  : Prop :=
  exists rounds : list (list Test),
    Ts = concat rounds /\
    Forall2 (fun _ round => Forall2 test_converts_to server_tests round)
      (iter_str available_tests) rounds.

(** The Phase [p] is the conversion of the object type [obj_type]. *)
Definition phase_converts_to (json : Json) (obj_type : string) (p : Phase)
  : Prop :=
  phase_name p = obj_type /\
  exists (objects : dict (list TestRecord)) (per_object : list (list Test)),
    Dict.get (test_results json) obj_type = Some objects /\
    tests p = concat per_object /\
    Forall2
      (fun obj_id Ts =>
         exists server_tests,
           Dict.get objects obj_id = Some server_tests /\
           object_converts_to server_tests Ts)
      (Dict.keys objects) per_object.

(** Every object type the converter walks is a key of "test_results". *)
Definition has_object_types (json : Json) : Prop :=
  forall obj_type, In obj_type object_types ->
    Dict.get (test_results json) obj_type <> None.

(** Every object type the aggregator walks is a key of "test_results". *)
Definition has_scanned_types (json : Json) : Prop :=
  forall obj_type, In obj_type scanned_types ->
    Dict.get (test_results json) obj_type <> None.

(** One of the object types the aggregator walks has an object instance. *)
Definition has_scanned_instance (json : Json) : Prop :=
  exists obj_type objects,
    In obj_type scanned_types /\
    Dict.get (test_results json) obj_type = Some objects /\
    objects <> [].

(** The summary [h] has an entry under [key] that records [key] as its name. *)
Definition has_entry (h : dict SummaryEntry) (key : string) : Prop :=
  exists e, Dict.get h key = Some e /\ name e = key.

(** The summary attached to [json] has an entry under every name the
    aggregator takes from [available_tests]. *)
Definition summary_complete (json : Json) : Prop :=
  exists h,
    high_level_summary json = Some h /\
    forall key, In key (iter_str available_tests) -> has_entry h key.

(** Two computations of a conversion agree up to the clock: they raise the
    same exception, or return values related by [R]. *)
Definition agree {A : Type} (R : A -> A -> Prop) (m1 m2 : M nat A) : Prop :=
  forall n1 n2,
    match fst (m1 n1), fst (m2 n2) with
    | inl e1, inl e2 => e1 = e2
    | inr a1, inr a2 => R a1 a2
    | _, _ => False
    end.

(** A computation of the aggregator leaves everything but the summary of
    the dictionary as it was, however it ends. *)
Definition same_inputs (j' j : Json) : Prop :=
  server_name j' = server_name j /\
  base_url j' = base_url j /\
  test_results j' = test_results j.

Definition preserves {A : Type} (m : M ScanState A) : Prop :=
  forall st, same_inputs (scanned (snd (m st))) (scanned st).

(** ** The properties of the specification, as it words them *)

(** The worst status of a list of statuses, fail (-1) before unknown (2)
    before skip (0) before pass (1). *)
Definition worst_status (statuses : list Z) : Z :=
  if existsb (Z.eqb (-1)) statuses then -1
  else if existsb (Z.eqb 2) statuses then 2
  else if existsb (Z.eqb 0) statuses then 0
  else 1.

(** The TestRecords of the tree, all object types and objects together. *)
Definition all_test_records (json : Json) : list TestRecord :=
  flat_map (fun by_type => flat_map snd (snd by_type)) (test_results json).

(** The statuses of the TestRecords whose parent list contains [capability]. *)
Definition member_statuses (json : Json) (capability : string) : list Z :=
  map tr_result
    (filter (fun t => str_in capability (tr_parents t)) (all_test_records json)).

(** Rollup correctness: the summary the aggregator leaves has, under every
    capability name of a parent list, the worst status of its members. *)
Definition rollup_is_worst_status (json : Json) : Prop :=
  forall t capability,
    In t (all_test_records json) -> In capability (tr_parents t) ->
    exists h e,
      high_level_summary (fst (scan_for_errors json)) = Some h /\
      Dict.get h capability = Some e /\
      result e = worst_status (member_statuses json capability).

(** Summary coverage: the summary the aggregator leaves has an entry under
    every capability name of a parent list of a TestRecord of an object type
    with an instance. *)
Definition summary_covers_parents (json : Json) : Prop :=
  forall obj_type objects obj_id server_tests t capability,
    Dict.get (test_results json) obj_type = Some objects ->
    Dict.get objects obj_id = Some server_tests ->
    In t server_tests -> In capability (tr_parents t) ->
    exists h e,
      high_level_summary (fst (scan_for_errors json)) = Some h /\
      Dict.get h capability = Some e.

(** An unmapped status is a conversion error: when a CaseRecord of a
    TestRecord of the tree has a status outside -1, 0, 1, 2, the conversion
    raises. *)
Definition unmapped_status_raises (clk : clock) (json : Json) : Prop :=
  forall t c,
    In t (all_test_records json) -> In c (tr_cases t) ->
    status_of_code (cr_status c) = None ->
    exists e, fst (convert_report_format clk json 0%nat) = inl e.

(** One Test per TestRecord: the Tests of the phase of an object type are
    as many as the TestRecords of its objects. *)
Definition one_test_per_record (clk : clock) (json : Json) : Prop :=
  forall r obj_type objects p,
    fst (convert_report_format clk json 0%nat) = inr r ->
    Dict.get (test_results json) obj_type = Some objects ->
    In p (phases r) -> phase_name p = obj_type ->
    map test_name (tests p) = map tr_name (flat_map snd objects).

(** Cases only for a TestRecord that did not pass: the conversion of a
    TestRecord has the Cases of its CaseRecords when the result is not 1 and
    none when it is 1. *)
Definition cases_iff_not_pass (clk : clock) (t : TestRecord) : Prop :=
  forall T,
    fst (convert_test clk t 0%nat) = inr T ->
    if tr_result t =? 1 then cases T = []
    else Forall2 converts_to (tr_cases t) (cases T).

(** A string of decimal digits: at least one character, each from 0 to 9. *)
Definition decimal_digits (s : string) : bool :=
  match s with
  | EmptyString => false
  | String _ _ =>
      forallb (fun c => (48 <=? N_of_ascii c) && (N_of_ascii c <=? 57))%N
        (list_ascii_of_string s)
  end.

(** The runs of the command that printed the usage and left with exit code
    1 before any test began. *)
Definition rejected_before_tests (run : list event * outcome) : Prop :=
  snd run = Exit 1 /\
  In Echo_usage (fst run) /\
  forall server, ~ In (Run_tests server) (fst run).

(** ** Concrete inputs *)

Definition clock0 : clock := fun _ => "2021-01-01T00:00:00Z".

Definition clock1 : clock := fun n =>
  if Nat.even n then "2021-06-01T12:00:00Z" else "2021-06-01T12:00:01Z".

Definition case_404 (status : Z) : CaseRecord :=
  {| cr_name := "status code";
     cr_description := "the response has the expected status code";
     cr_summary := "status code 404";
     cr_status := status;
     cr_audit := ["GET /projects/123456789"; "response status: 404"] |}.

Definition project_get_test (status : Z) (case_status : Z) : TestRecord :=
  {| tr_name := "project_get";
     tr_description := "get a project by its id";
     tr_text := "project_get";
     tr_result := status;
     tr_parents := ["project_get"];
     tr_cases := [case_404 case_status] |}.

(** A tree with one project, and the TestRecords of that project. *)
Definition tree_of (server_tests : list TestRecord) : Json :=
  {| server_name := "Server A";
     base_url := "http://localhost:5000/";
     test_results :=
       [("projects", [("43378a5d48364f9d8cf3c3d5104df560", server_tests)]);
        ("studies", []);
        ("expressions", []);
        ("continuous", [])];
     high_level_summary := None |}.

(** One project whose only test, a member of "project_get", failed. *)
Definition tree_failing_member : Json := tree_of [project_get_test (-1) (-1)].

(** One project whose failed test has a case with the status code 5. *)
Definition tree_unmapped_status : Json := tree_of [project_get_test (-1) 5].

(** One project with one passing test that carries one case. *)
Definition tree_single_test : Json := tree_of [project_get_test 1 1].

(** No project, study or expression; one continuous object whose test
    names the capability "continuous_get". *)
Definition tree_continuous_only : Json :=
  {| server_name := "Server A";
     base_url := "http://localhost:5000/";
     test_results :=
       [("projects", []);
        ("studies", []);
        ("expressions", []);
        ("continuous",
         [("5e22d8e5a5d14a1b8ff1ce9a9b0c7b1e",
           [{| tr_name := "continuous_get";
               tr_description := "get a continuous object by its id";
               tr_text := "continuous_get";
               tr_result := 1;
               tr_parents := ["continuous_get"];
               tr_cases := [] |}])])];
     high_level_summary := None |}.

(** The tree of [tree_single_test] after an earlier aggregation. *)
Definition tree_with_summary : Json :=
  {| server_name := server_name tree_single_test;
     base_url := base_url tree_single_test;
     test_results := test_results tree_single_test;
     high_level_summary :=
       Some [("project_get", {| result := -1; name := "project_get" |})] |}.

(** A world in which the configuration is valid, the output directory can
    be created and the runner returns [tree_single_test]. *)
Definition world0 : World :=
  {| wall_clock := clock0;
     parse_and_validate :=
       fun _ => inr {| cfg_server_name := "Server A"; cfg_token := None |};
     basename := fun p => p;
     dirname := fun _ => "";
     path_exists := fun p => String.eqb p ".";
     run_tests := fun _ => tree_single_test |}.

(** [report -c config.yaml -u ²]: the uptime is SUPERSCRIPT TWO (U+00B2). *)
Definition args_superscript_uptime : Args :=
  {| user_config := Some "config.yaml";
     output_dir := "rnaget-compliance-results";
     serve := false;
     uptime := String "178" "";
     no_tar := false;
     force := false;
     pretty := false |}.

(** [report -u 36x] without a configuration file. *)
Definition args_no_config : Args :=
  {| user_config := None;
     output_dir := "rnaget-compliance-results";
     serve := false;
     uptime := "36x";
     no_tar := false;
     force := false;
     pretty := false |}.

(** ** What the loops reach *)

(** The first of [types] that is not a key of [d]: the key of the KeyError
    a loop over [types] that subscripts [d] ends with. *)
Fixpoint first_missing {V : Type} (d : dict V) (types : list string)
  : option string :=
  match types with
  | [] => None
  | ty :: types' =>
      match Dict.get d ty with
      | None => Some ty
      | Some _ => first_missing d types'
      end
  end.

(** Whether a walk over [types] comes to an object before it comes to a
    missing type. *)
Fixpoint reaches_object {V : Type} (d : dict (dict V)) (types : list string)
  : bool :=
  match types with
  | [] => false
  | ty :: types' =>
      match Dict.get d ty with
      | None => false
      | Some [] => reaches_object d types'
      | Some (_ :: _) => true
      end
  end.

(** The dictionary [h] after entries with result 1 are stored under
    [names], one after the other. *)
Definition stored_passes (h : dict SummaryEntry) (names : list string)
  : dict SummaryEntry :=
  fold_left
    (fun h high_level_name =>
       Dict.set h high_level_name {| result := 1; name := high_level_name |})
    names h.

(** The summary with result 1 under each character of "project_get". *)
Definition all_pass_summary : dict SummaryEntry :=
  [("p", {| result := 1; name := "p" |});
   ("r", {| result := 1; name := "r" |});
   ("o", {| result := 1; name := "o" |});
   ("j", {| result := 1; name := "j" |});
   ("e", {| result := 1; name := "e" |});
   ("c", {| result := 1; name := "c" |});
   ("t", {| result := 1; name := "t" |});
   ("_", {| result := 1; name := "_" |});
   ("g", {| result := 1; name := "g" |})].

(** The names of the Tests the loops of lines 263-272 add to the phase of
    [obj_type]: object by object, eleven runs of the names of its
    TestRecords. *)
Definition phase_test_names (json : Json) (obj_type : string) : list string :=
  match Dict.get (test_results json) obj_type with
  | None => []
  | Some objects =>
      flat_map
        (fun obj_id =>
           match Dict.get objects obj_id with
           | None => []
           | Some server_tests =>
               concat (repeat (map tr_name server_tests) 11)
           end)
        (Dict.keys objects)
  end.




(** [output_dir] after lines 130-134. *)
Definition resolved_output_dir (w : World) (a : Args) : string :=
  if String.eqb (dirname w (output_dir a)) ""
  then ("./" ++ basename w (output_dir a))%string
  else output_dir a.

(** [output_base_dir] after lines 130-134. *)
Definition resolved_base_dir (w : World) (a : Args) : string :=
  if String.eqb (dirname w (output_dir a)) "" then "." else dirname w (output_dir a).

(** The path handed to the configuration parser on line 125. *)
Definition config_path (a : Args) : string :=
  match user_config a with Some p => p | None => "" end.

(** The checks of lines 110-149 all passed: a configuration file is named,
    the uptime passes [isdigit()], the configuration parses and validates to
    [cfg], the base directory exists, and without [--force] neither the
    output directory nor its archive exists. *)
Definition setup_passed (w : World) (a : Args) (cfg : Config) : Prop :=
  not_given (user_config a) = false /\
  isdigit (uptime a) = true /\
  parse_and_validate w (config_path a) = inr cfg /\
  path_exists w (resolved_base_dir w a) = true /\
  (force a = true \/
   (path_exists w (resolved_output_dir w a) = false /\
    path_exists w (resolved_output_dir w a ++ ".tar.gz")%string = false)).

(** Events that print or log, and touch nothing. *)
Definition is_message (e : event) : Prop :=
  match e with
  | Log _ | Echo_usage | Print _ => True
  | _ => False
  end.

(** What an optional step of the command needs to happen. *)
Definition step_requested (w : World) (a : Args) (e : event) : Prop :=
  match e with
  | Rmtree path =>
      force a = true /\ path = resolved_output_dir w a /\
      path_exists w path = true
  | Make_tarball archive dir _ =>
      no_tar a = false /\ dir = resolved_output_dir w a /\
      archive = (resolved_output_dir w a ++ ".tar.gz")%string
  | Serve dir seconds =>
      serve a = true /\ dir = resolved_output_dir w a /\
      int_of_digits (uptime a) = Some seconds
  | Set_authorization value =>
      exists cfg token,
        parse_and_validate w (config_path a) = inr cfg /\
        cfg_token cfg = Some token /\ token <> ""%string /\
        value = ("Bearer " ++ token)%string
  | _ => True
  end.

(** A computation of the command that ends normally has only added to
    the trace. *)
Definition extends_trace {A : Type} (m : M (list event) A) : Prop :=
  forall trace a trace',
    m trace = (inr a, trace') -> exists more, trace' = trace ++ more.

(** A computation of the command emits events of the kind [P] only. *)
Definition emits_only {A : Type} (P : event -> Prop) (m : M (list event) A)
  : Prop :=
  forall trace, Forall P trace -> Forall P (snd (m trace)).

(** A world in which every path exists and the configuration carries the
    token of the unit tests' SERVER_CONFIG. *)
Definition world1 : World :=
  {| wall_clock := clock1;
     parse_and_validate :=
       fun _ => inr {| cfg_server_name := "Server A";
                       cfg_token := Some "gd3uhUnyk3pVVDakkPSK7Pa0V7EvuOCa" |};
     basename := fun p => p;
     dirname := fun _ => "";
     path_exists := fun _ => true;
     run_tests := fun _ => tree_failing_member |}.

(** [report -c config.yaml --force --serve -u 3600] *)
Definition args_force_serve : Args :=
  {| user_config := Some "config.yaml";
     output_dir := "rnaget-compliance-results";
     serve := true;
     uptime := "3600";
     no_tar := false;
     force := true;
     pretty := true |}.


(** * Properties *)

(** ** The model on small inputs *)

Example iter_str_available_tests :
  iter_str available_tests =
    ["p"; "r"; "o"; "j"; "e"; "c"; "t"; "_"; "g"; "e"; "t"].
Proof. reflexivity. Qed.

Example set_keeps_the_place_of_a_key :
  Dict.set [("e", 1); ("c", 2)] "e" 3 = [("e", 3); ("c", 2)] /\
  Dict.set [("e", 1); ("c", 2)] "t" 3 = [("e", 1); ("c", 2); ("t", 3)].
Proof. split; reflexivity. Qed.

Example isdigit_on_small_inputs :
  isdigit "3600" = true /\ isdigit "" = false /\ isdigit "36x" = false /\
  isdigit "-5" = false /\ isdigit " 5" = false.
Proof. repeat split; reflexivity. Qed.

Example int_of_digits_3600 : int_of_digits "3600" = Some 3600.
Proof. reflexivity. Qed.

Example status_of_code_on_small_inputs :
  map status_of_code [1; 0; -1; 2; 3; -2] =
    [Some PASS; Some SKIP; Some FAIL; Some UNKNOWN; None; None].
Proof. reflexivity. Qed.

(** A tree without "continuous" is scanned to the end but not converted. *)
Example missing_object_type :
  let json :=
    {| server_name := "Server A";
       base_url := "http://localhost:5000/";
       test_results := [("projects", []); ("studies", []); ("expressions", [])];
       high_level_summary := None |} in
  scan_for_errors json = (json, None) /\
  converted clock0 json 0%nat = inl (KeyError "continuous").
Proof. split; reflexivity. Qed.

(** ** Dictionaries *)

Lemma get_set_same {V : Type} (d : dict V) (k : string) (v : V) :
  Dict.get (Dict.set d k v) k = Some v.
Proof.
  induction d as [|[k' v'] d IH]; simpl.
  - now rewrite String.eqb_refl.
  - destruct (String.eqb k' k) eqn:E; simpl; rewrite E; auto.
Qed.

Lemma get_set_other {V : Type} (d : dict V) (k k' : string) (v : V) :
  k <> k' -> Dict.get (Dict.set d k v) k' = Dict.get d k'.
Proof.
  intros Hne. induction d as [|[k0 v0] d IH]; simpl.
  - destruct (String.eqb_spec k k'); [contradiction | reflexivity].
  - destruct (String.eqb_spec k0 k) as [->|Hk]; simpl.
    + destruct (String.eqb_spec k k'); [contradiction | reflexivity].
    + destruct (String.eqb_spec k0 k'); auto.
Qed.

(** A key that [keys()] yields can be looked up. *)
Lemma get_of_key {V : Type} (d : dict V) (k : string) :
  In k (Dict.keys d) -> exists v, Dict.get d k = Some v.
Proof.
  induction d as [|[k0 v0] d IH]; simpl; [tauto|].
  intros [->|Hin].
  - rewrite String.eqb_refl. eauto.
  - destruct (String.eqb k0 k); eauto.
Qed.

Lemma get_not_none {V : Type} (d : dict V) (k : string) :
  Dict.get d k <> None -> exists v, Dict.get d k = Some v.
Proof. destruct (Dict.get d k); [eauto | congruence]. Qed.

(** ** The aggregator *)

(** The loop of lines 56-62 never changes [result]. *)
Lemma rollup_is_pass (high_level_name : string) (server_tests : list TestRecord) :
  rollup high_level_name server_tests = 1.
Proof.
  unfold rollup. generalize 1.
  induction server_tests as [|t ts IH]; intros z; simpl; [reflexivity|].
  destruct (str_in high_level_name (tr_parents t)); apply IH.
Qed.

Lemma same_inputs_refl (j : Json) : same_inputs j j.
Proof. repeat split. Qed.

Lemma same_inputs_trans (j1 j2 j3 : Json) :
  same_inputs j1 j2 -> same_inputs j2 j3 -> same_inputs j1 j3.
Proof.
  intros (A1 & A2 & A3) (B1 & B2 & B3).
  repeat split; congruence.
Qed.

Lemma preserves_ret {A : Type} (a : A) : preserves (ret a).
Proof. intros st. apply same_inputs_refl. Qed.

Lemma preserves_raise {A : Type} (e : exn) : preserves (@raise _ A e).
Proof. intros st. apply same_inputs_refl. Qed.

Lemma preserves_get_state : preserves get_state.
Proof. intros st. apply same_inputs_refl. Qed.

Lemma preserves_subscript {V : Type} (d : dict V) (k : string) :
  preserves (subscript d k).
Proof.
  unfold subscript. destruct (Dict.get d k).
  - apply preserves_ret.
  - apply preserves_raise.
Qed.

Lemma preserves_bind {A B : Type} (m : M ScanState A) (f : A -> M ScanState B) :
  preserves m -> (forall a, preserves (f a)) -> preserves (bind m f).
Proof.
  intros Hm Hf st. unfold bind.
  specialize (Hm st). destruct (m st) as [[e|a] st1]; simpl in *.
  - exact Hm.
  - eapply same_inputs_trans; [apply Hf | exact Hm].
Qed.

Lemma preserves_for_each {X : Type} (xs : list X) (body : X -> M ScanState unit) :
  (forall x, preserves (body x)) -> preserves (for_each xs body).
Proof.
  intros Hbody. induction xs as [|x xs IH]; simpl.
  - apply preserves_ret.
  - apply preserves_bind; auto.
Qed.

Lemma preserves_summarise_name (server_tests : list TestRecord) (nm : string) :
  preserves (summarise_name server_tests nm).
Proof. intros st. apply same_inputs_refl. Qed.

Lemma preserves_attach_summary : preserves attach_summary.
Proof. intros st. unfold same_inputs. simpl. auto. Qed.

Lemma preserves_scan_object (obj_type obj_id : string) :
  preserves (scan_object obj_type obj_id).
Proof.
  unfold scan_object.
  apply preserves_bind; [apply preserves_get_state | intros st].
  apply preserves_bind; [apply preserves_subscript | intros objects].
  apply preserves_bind; [apply preserves_subscript | intros server_tests].
  apply preserves_bind; [| intros _; apply preserves_attach_summary].
  apply preserves_for_each. apply preserves_summarise_name.
Qed.

Lemma preserves_scan_object_type (obj_type : string) :
  preserves (scan_object_type obj_type).
Proof.
  unfold scan_object_type.
  apply preserves_bind; [apply preserves_get_state | intros st].
  apply preserves_bind; [apply preserves_subscript | intros objects].
  apply preserves_for_each. apply preserves_scan_object.
Qed.

(** C9. Frame property of the aggregator: whatever the dictionary and
    however the call ends, after [scan_for_errors] the entries "server_name",
    "base_url" and "test_results" (with every TestRecord and CaseRecord
    below it) are what they were; only "high_level_summary" can differ. *)
Theorem scan_for_errors_frame (json : Json) :
  server_name (fst (scan_for_errors json)) = server_name json /\
  base_url (fst (scan_for_errors json)) = base_url json /\
  test_results (fst (scan_for_errors json)) = test_results json.
Proof.
  pose proof (preserves_for_each scanned_types scan_object_type
                preserves_scan_object_type
                {| local_summary := Dict.empty; scanned := json |}) as H.
  unfold scan_for_errors.
  destruct (for_each scanned_types scan_object_type _) as [r st].
  exact H.
Qed.

(** *** What the aggregator attaches *)

(** The loop over [available_tests] ends normally, touches the local
    dictionary only, and leaves an entry under every name it went through;
    an entry that was there stays. *)
Lemma summarise_names_run (server_tests : list TestRecord) (names : list string) :
  forall st, exists st',
    for_each names (summarise_name server_tests) st = (inr tt, st') /\
    scanned st' = scanned st /\
    forall key,
      In key names \/ has_entry (local_summary st) key ->
      has_entry (local_summary st') key.
Proof.
  induction names as [|nm names IH]; intros st; simpl.
  - exists st. repeat split; auto. intros key [[]|H]; exact H.
  - unfold bind at 1. simpl.
    match goal with |- context [for_each names _ ?s1] =>
      destruct (IH s1) as (st' & Hrun & Hsc & Hent) end.
    exists st'. split; [exact Hrun|]. split; [exact Hsc|].
    intros key Hkey. apply Hent. simpl.
    destruct (string_dec nm key) as [->|Hne].
    + right. eexists. rewrite get_set_same. split; reflexivity.
    + destruct Hkey as [[Heq|Hin]|(e & Hget & Hname)];
        [contradiction | now left | right].
      exists e. rewrite get_set_other by exact Hne. auto.
Qed.

(** One round over an object id of the object type ends normally and leaves
    a complete summary attached. *)
Lemma scan_object_run (obj_type obj_id : string) (objects : dict (list TestRecord)) :
  forall st,
    Dict.get (test_results (scanned st)) obj_type = Some objects ->
    In obj_id (Dict.keys objects) ->
    exists st',
      scan_object obj_type obj_id st = (inr tt, st') /\
      test_results (scanned st') = test_results (scanned st) /\
      summary_complete (scanned st').
Proof.
  intros st Hty Hid.
  destruct (get_of_key objects obj_id Hid) as (server_tests & Hget).
  destruct (summarise_names_run server_tests (iter_str available_tests) st)
    as (st1 & Hrun & Hsc & Hent).
  unfold scan_object, summary_complete.
  remember (iter_str available_tests) as names eqn:Hnames in *.
  unfold bind, get_state, subscript. simpl.
  rewrite Hty. simpl. rewrite Hget. simpl. rewrite Hrun. simpl.
  eexists. split; [reflexivity|]. simpl. split; [now rewrite Hsc|].
  exists (local_summary st1). split; [reflexivity|].
  intros key Hkey. apply Hent. now left.
Qed.

(** The loop over object ids: it ends normally; the summary is complete
    afterwards if there was a round, or if it was complete before. *)
Lemma scan_objects_run (obj_type : string) (objects : dict (list TestRecord))
    (ids : list string) :
  (forall id, In id ids -> In id (Dict.keys objects)) ->
  forall st,
    Dict.get (test_results (scanned st)) obj_type = Some objects ->
    exists st',
      for_each ids (scan_object obj_type) st = (inr tt, st') /\
      test_results (scanned st') = test_results (scanned st) /\
      (ids <> [] \/ summary_complete (scanned st) ->
       summary_complete (scanned st')).
Proof.
  induction ids as [|id ids IH]; intros Hsub st Hty; simpl.
  - exists st. repeat split; auto. intros [H|H]; [congruence | exact H].
  - destruct (scan_object_run obj_type id objects st Hty) as (st1 & Hrun & Htr & Hc).
    { apply Hsub. now left. }
    destruct (IH (fun i Hi => Hsub i (or_intror Hi)) st1) as (st' & Hrun' & Htr' & Hc').
    { now rewrite Htr. }
    exists st'. unfold bind at 1. rewrite Hrun.
    split; [exact Hrun'|]. split; [congruence|].
    intros _. apply Hc'. now right.
Qed.

Lemma scan_object_type_run (obj_type : string) (objects : dict (list TestRecord)) :
  forall st,
    Dict.get (test_results (scanned st)) obj_type = Some objects ->
    exists st',
      scan_object_type obj_type st = (inr tt, st') /\
      test_results (scanned st') = test_results (scanned st) /\
      (objects <> [] \/ summary_complete (scanned st) ->
       summary_complete (scanned st')).
Proof.
  intros st Hty.
  destruct (scan_objects_run obj_type objects (Dict.keys objects)
              (fun _ H => H) st Hty) as (st' & Hrun & Htr & Hc).
  exists st'. unfold scan_object_type, bind, get_state, subscript. simpl.
  rewrite Hty. simpl. split; [exact Hrun|]. split; [exact Htr|].
  intros [Hne|H]; apply Hc; [left | now right].
  destruct objects; [congruence | discriminate].
Qed.

(** The loop over object types, on a tree that has them all. *)
Lemma scan_object_types_run (types : list string) :
  forall st,
    (forall ty, In ty types -> Dict.get (test_results (scanned st)) ty <> None) ->
    exists st',
      for_each types scan_object_type st = (inr tt, st') /\
      test_results (scanned st') = test_results (scanned st) /\
      ((exists ty objects,
          In ty types /\
          Dict.get (test_results (scanned st)) ty = Some objects /\
          objects <> [])
       \/ summary_complete (scanned st) ->
       summary_complete (scanned st')).
Proof.
  induction types as [|ty types IH]; intros st Hall; simpl.
  - exists st. repeat split; auto.
    intros [(ty & objs & [] & _)|H]; exact H.
  - destruct (get_not_none _ _ (Hall ty (or_introl eq_refl))) as (objects & Hty).
    destruct (scan_object_type_run ty objects st Hty) as (st1 & Hrun & Htr & Hc).
    destruct (IH st1) as (st' & Hrun' & Htr' & Hc').
    { intros ty' Hin. rewrite Htr. apply Hall. now right. }
    exists st'. unfold bind at 1. rewrite Hrun.
    split; [exact Hrun'|]. split; [congruence|].
    intros [(ty' & objs & [Heq|Hin] & Hget & Hne)|H]; apply Hc'.
    + subst ty'. right. apply Hc. left. congruence.
    + left. exists ty', objs. rewrite Htr. auto.
    + right. apply Hc. now right.
Qed.

(** C1. Evaluation at the failing input: for one project whose only test, a
    member of "project_get", failed (-1), the aggregator attaches entries
    under the characters of the name, each with result 1; no entry is keyed
    "project_get", and the rollup is not the worst status of the members. *)
Theorem scan_for_errors_ignores_failure :
  high_level_summary (fst (scan_for_errors tree_failing_member)) =
    Some [("p", {| result := 1; name := "p" |});
          ("r", {| result := 1; name := "r" |});
          ("o", {| result := 1; name := "o" |});
          ("j", {| result := 1; name := "j" |});
          ("e", {| result := 1; name := "e" |});
          ("c", {| result := 1; name := "c" |});
          ("t", {| result := 1; name := "t" |});
          ("_", {| result := 1; name := "_" |});
          ("g", {| result := 1; name := "g" |})] /\
  worst_status (member_statuses tree_failing_member "project_get") = -1 /\
  ~ rollup_is_worst_status tree_failing_member.
Proof.
  split; [reflexivity|]. split; [reflexivity|].
  intros H.
  destruct (H (project_get_test (-1) (-1)) "project_get") as (h & e & Hh & He & _).
  - simpl. auto.
  - simpl. auto.
  - vm_compute in Hh. injection Hh as <-. discriminate He.
Qed.

(** C5, as the specification words it, fails: on a tree whose only object
    is a continuous one, with a test that names "continuous_get", the
    aggregator attaches no summary at all. *)
Lemma summary_misses_continuous : ~ summary_covers_parents tree_continuous_only.
Proof.
  intros H.
  destruct (H "continuous" _ "5e22d8e5a5d14a1b8ff1ce9a9b0c7b1e" _ _ "continuous_get"
              eq_refl eq_refl (or_introl eq_refl) (or_introl eq_refl))
    as (h & e & Hh & _).
  discriminate Hh.
Qed.

(** C5, amended. On a tree that has the projects, studies and expressions
    maps, at least one of them with an object instance, the aggregator ends
    normally and leaves a summary attached that has an entry under every
    name it takes from its own [available_tests], each entry recording that
    name. The names are not read from the parent lists, and continuous
    objects are not walked. *)
Theorem scan_for_errors_summary_entries (json : Json) :
  has_scanned_types json ->
  has_scanned_instance json ->
  snd (scan_for_errors json) = None /\
  exists h,
    high_level_summary (fst (scan_for_errors json)) = Some h /\
    forall key, In key (iter_str available_tests) ->
      exists e, Dict.get h key = Some e /\ name e = key.
Proof.
  intros Htypes Hinst.
  destruct (scan_object_types_run scanned_types
              {| local_summary := Dict.empty; scanned := json |} Htypes)
    as (st' & Hrun & _ & Hc).
  unfold scan_for_errors. rewrite Hrun. simpl. split; [reflexivity|].
  apply Hc. left. exact Hinst.
Qed.

(** C5, amended, at a tree with one project. *)
Lemma scan_for_errors_summary_entries_witness :
  has_scanned_types tree_single_test /\
  has_scanned_instance tree_single_test /\
  snd (scan_for_errors tree_single_test) = None /\
  exists h,
    high_level_summary (fst (scan_for_errors tree_single_test)) = Some h /\
    forall key, In key (iter_str available_tests) ->
      exists e, Dict.get h key = Some e /\ name e = key.
Proof.
  assert (Htypes : has_scanned_types tree_single_test).
  { intros ty [<-|[<-|[<-|[]]]]; discriminate. }
  assert (Hinst : has_scanned_instance tree_single_test).
  { exists "projects",
      [("43378a5d48364f9d8cf3c3d5104df560", [project_get_test 1 1])].
    split; [simpl; auto|]. split; [reflexivity | discriminate]. }
  split; [exact Htypes|]. split; [exact Hinst|].
  exact (scan_for_errors_summary_entries tree_single_test Htypes Hinst).
Defined.

(** ** The converter *)

(** *** Loops that end normally *)

Lemma bind_run {S A B : Type} (m : M S A) (f : A -> M S B) (s s' : S) (a : A) :
  m s = (inr a, s') -> bind m f s = f a s'.
Proof. intros H. unfold bind. now rewrite H. Qed.

Lemma subscript_run {S V : Type} (d : dict V) (k : string) (v : V) (s : S) :
  Dict.get d k = Some v -> subscript d k s = (inr v, s).
Proof. intros H. unfold subscript. now rewrite H. Qed.

Lemma for_collect_run {S X B : Type} (P : X -> list B -> Prop)
    (xs : list X) (body : X -> M S (list B)) :
  (forall x, In x xs ->
     forall s, exists bs s', body x s = (inr bs, s') /\ P x bs) ->
  forall s, exists bss s',
    for_collect xs body s = (inr (concat bss), s') /\ Forall2 P xs bss.
Proof.
  induction xs as [|x xs IH]; intros Hbody s; simpl.
  - exists [], s. split; [reflexivity | constructor].
  - destruct (Hbody x (or_introl eq_refl) s) as (bs & s1 & Hrun & HP).
    destruct (IH (fun y Hy => Hbody y (or_intror Hy)) s1) as (bss & s2 & Hrun' & HF).
    exists (bs :: bss), s2. unfold bind. rewrite Hrun, Hrun'.
    split; [reflexivity | now constructor].
Qed.

Lemma for_collect_one_run {S X B : Type} (Q : X -> B -> Prop)
    (xs : list X) (f : X -> M S B) :
  (forall x, In x xs ->
     forall s, exists b s', f x s = (inr b, s') /\ Q x b) ->
  forall s, exists bs s',
    for_collect xs (fun x => b <- f x ;; ret [b]) s = (inr bs, s') /\
    Forall2 Q xs bs.
Proof.
  induction xs as [|x xs IH]; intros Hf s; simpl.
  - exists [], s. split; [reflexivity | constructor].
  - destruct (Hf x (or_introl eq_refl) s) as (b & s1 & Hrun & HQ).
    destruct (IH (fun y Hy => Hf y (or_intror Hy)) s1) as (bs & s2 & Hrun' & HF).
    exists (b :: bs), s2. unfold bind, ret in *. rewrite Hrun, Hrun'.
    split; [reflexivity | now constructor].
Qed.

Lemma Forall2_In_l {A B : Type} (R : A -> B -> Prop) (l : list A) (l' : list B) (x : A) :
  Forall2 R l l' -> In x l -> exists y, In y l' /\ R x y.
Proof.
  induction 1 as [|a b l l' HR HF IH]; simpl; [tauto|].
  intros [->|Hin].
  - exists b. auto.
  - destruct (IH Hin) as (y & Hy & HRy). exists y. auto.
Qed.

Lemma Forall2_map_eq {A B C : Type} (f : A -> C) (g : B -> C)
    (l : list A) (l' : list B) :
  Forall2 (fun a b => f a = g b) l l' -> map f l = map g l'.
Proof. induction 1; simpl; congruence. Qed.

(** *** From CaseRecords to Cases *)

Lemma add_log_messages_from (audit logs : list string) :
  fold_left (fun logs log_message => logs ++ [log_message]) audit logs =
  logs ++ audit.
Proof.
  revert logs. induction audit as [|m audit IH]; intros logs; simpl.
  - now rewrite app_nil_r.
  - rewrite IH, <- app_assoc. reflexivity.
Qed.

(** The log of a Case is the audit of its CaseRecord, in order. *)
Lemma add_log_messages_audit (audit : list string) :
  add_log_messages audit = audit.
Proof. unfold add_log_messages. now rewrite add_log_messages_from. Qed.

(** The chain of line 293 sets a status for the four codes and for no
    other. *)
Lemma status_of_code_none (code : Z) :
  status_of_code code = None <->
  code <> 1 /\ code <> 0 /\ code <> -1 /\ code <> 2.
Proof.
  unfold status_of_code.
  destruct (Z.eqb_spec code 1); [split; [discriminate | lia]|].
  destruct (Z.eqb_spec code 0); [split; [discriminate | lia]|].
  destruct (Z.eqb_spec code (-1)); [split; [discriminate | lia]|].
  destruct (Z.eqb_spec code 2); [split; [discriminate | lia]|].
  split; auto.
Qed.

Lemma convert_case_run (clk : clock) (c : CaseRecord) (n : nat) :
  exists k n', convert_case clk c n = (inr k, n') /\ converts_to c k.
Proof.
  eexists; eexists. split; [reflexivity|].
  unfold converts_to. simpl. rewrite add_log_messages_audit. auto.
Qed.

Lemma convert_test_run (clk : clock) (t : TestRecord) (n : nat) :
  exists T n', convert_test clk t n = (inr T, n') /\ test_converts_to t T.
Proof.
  unfold convert_test, test_converts_to.
  destruct (tr_result t =? 0) eqn:E; simpl.
  - eexists; eexists. split; [reflexivity|]. simpl. auto.
  - destruct (for_collect_one_run converts_to (tr_cases t) (convert_case clk)
                (fun c _ s => convert_case_run clk c s) n)
      as (ks & n1 & Hrun & HF).
    unfold bind at 1. rewrite Hrun.
    eexists; eexists. split; [reflexivity|]. simpl. auto.
Qed.

Lemma convert_object_run (clk : clock) (server_tests : list TestRecord) (n : nat) :
  exists Ts n',
    convert_object clk server_tests n = (inr Ts, n') /\
    object_converts_to server_tests Ts.
Proof.
  unfold convert_object, object_converts_to.
  destruct (for_collect_run
              (fun (_ : string) round => Forall2 test_converts_to server_tests round)
              (iter_str available_tests)
              (fun _ => for_collect server_tests
                          (fun test => T <- convert_test clk test ;; ret [T]))
              (fun _ _ s =>
                 for_collect_one_run test_converts_to server_tests (convert_test clk)
                   (fun t _ s' => convert_test_run clk t s') s)
              n)
    as (rounds & n' & Hrun & HF).
  exists (concat rounds), n'. split; [exact Hrun|]. exists rounds. auto.
Qed.

Lemma convert_phase_run (clk : clock) (json : Json) (obj_type : string) (n : nat) :
  Dict.get (test_results json) obj_type <> None ->
  exists p n',
    convert_phase clk json obj_type n = (inr p, n') /\
    phase_converts_to json obj_type p.
Proof.
  intros Hty. destruct (get_not_none _ _ Hty) as (objects & Hget).
  unfold convert_phase, phase_converts_to.
  assert (Hbody : forall obj_id, In obj_id (Dict.keys objects) ->
            forall s, exists Ts s',
              (objects <- subscript (test_results json) obj_type ;;
               server_tests <- subscript objects obj_id ;;
               convert_object clk server_tests) s = (inr Ts, s') /\
              exists server_tests,
                Dict.get objects obj_id = Some server_tests /\
                object_converts_to server_tests Ts).
  { intros obj_id Hin s.
    destruct (get_of_key objects obj_id Hin) as (server_tests & Hid).
    destruct (convert_object_run clk server_tests s) as (Ts & s' & HrunO & HO).
    exists Ts, s'.
    rewrite (bind_run _ _ s s objects (subscript_run _ _ _ s Hget)).
    rewrite (bind_run _ _ s s server_tests (subscript_run _ _ _ s Hid)).
    split; [exact HrunO|]. exists server_tests. auto. }
  destruct (for_collect_run _ _ _ Hbody (S n)) as (per_object & n1 & Hrun & HF).
  rewrite (bind_run _ _ n (S n) (clk n) eq_refl).
  rewrite (bind_run _ _ (S n) (S n) objects (subscript_run _ _ _ _ Hget)).
  rewrite (bind_run _ _ _ _ _ Hrun).
  eexists; eexists. split; [reflexivity|]. simpl. split; [reflexivity|].
  exists objects, per_object. auto.
Qed.

(** On a tree that has the four object types the conversion returns a
    report, made of the conversions of the object types in their order. *)
Lemma convert_report_format_run (clk : clock) (json : Json) (n : nat) :
  has_object_types json ->
  exists r n',
    convert_report_format clk json n = (inr r, n') /\
    Forall2 (phase_converts_to json) object_types (phases r) /\
    testbed_name r = "rnaget-compliance-suite" /\
    platform_name r = server_name json /\
    input_parameters r = [("base_url", base_url json)] /\
    finalized r = true.
Proof.
  intros Hall. unfold convert_report_format.
  destruct (for_collect_one_run (phase_converts_to json) object_types
              (convert_phase clk json)
              (fun ty Hin s => convert_phase_run clk json ty s (Hall ty Hin))
              (S n))
    as (ps & n1 & Hrun & HF).
  unfold bind at 1. unfold now at 1. unfold bind at 1. rewrite Hrun.
  eexists; eexists. split; [reflexivity|]. simpl. auto.
Qed.

(** One object adds, for each of its TestRecords, as many Tests as the loop
    on line 267 has rounds. *)
Lemma object_converts_to_length (server_tests : list TestRecord) (Ts : list Test) :
  object_converts_to server_tests Ts ->
  length Ts = (length (iter_str available_tests) * length server_tests)%nat.
Proof.
  intros (rounds & -> & HF).
  induction HF as [|nm round names rounds Hround _ IH]; simpl; [reflexivity|].
  rewrite length_app, IH.
  f_equal. symmetry. eapply Forall2_length. exact Hround.
Qed.

(** C6. On every raw result tree (one that has the four object types) the
    conversion returns a report whose Phases are, by name and in order,
    projects, studies, expressions, continuous: one Phase per object type. *)
Theorem convert_report_format_phases (clk : clock) (json : Json) (n : nat) :
  has_object_types json ->
  exists r n',
    convert_report_format clk json n = (inr r, n') /\
    map phase_name (phases r) =
      ["projects"; "studies"; "expressions"; "continuous"].
Proof.
  intros Hall.
  destruct (convert_report_format_run clk json n Hall) as (r & n' & Hrun & HF & _).
  exists r, n'. split; [exact Hrun|].
  change ["projects"; "studies"; "expressions"; "continuous"]
    with (map (fun ty : string => ty) object_types).
  symmetry. apply Forall2_map_eq.
  eapply Forall2_impl; [|exact HF]. intros ty p (Hname & _). now symmetry.
Qed.

Lemma tree_of_has_object_types (server_tests : list TestRecord) :
  has_object_types (tree_of server_tests).
Proof. intros ty [<-|[<-|[<-|[<-|[]]]]]; discriminate. Qed.

(** C6 at a tree with one project, read on a clock that moves. *)
Lemma convert_report_format_phases_witness :
  has_object_types tree_failing_member /\
  exists r n',
    convert_report_format clock1 tree_failing_member 0%nat = (inr r, n') /\
    map phase_name (phases r) =
      ["projects"; "studies"; "expressions"; "continuous"].
Proof.
  split.
  - apply tree_of_has_object_types.
  - apply (convert_report_format_phases clock1 tree_failing_member 0%nat).
    apply tree_of_has_object_types.
Defined.

(** C2, as the specification words it, fails: with a case whose status code
    is 5 the conversion does not raise. *)
Lemma unmapped_status_is_not_rejected :
  ~ unmapped_status_raises clock0 tree_unmapped_status.
Proof.
  intros H.
  destruct (H (project_get_test (-1) 5) (case_404 5)) as (e & He).
  - simpl. auto.
  - simpl. auto.
  - reflexivity.
  - discriminate He.
Qed.

(** C2, amended. On every raw result tree (one that has the four object
    types), whatever the status codes, the conversion raises nothing and
    returns a report; each CaseRecord [c] of a TestRecord whose result is not
    0 has its Case in the phase of its object type, and the status of that
    Case is the one the code maps to: pass for 1, skip for 0, fail for -1,
    unknown for 2, and no status set for any other code. *)
Theorem convert_report_format_case_status
    (clk : clock) (json : Json) (n : nat) (obj_type obj_id : string)
    (objects : dict (list TestRecord)) (server_tests : list TestRecord)
    (t : TestRecord) (c : CaseRecord) :
  has_object_types json ->
  In obj_type object_types ->
  Dict.get (test_results json) obj_type = Some objects ->
  In obj_id (Dict.keys objects) ->
  Dict.get objects obj_id = Some server_tests ->
  In t server_tests ->
  tr_result t <> 0 ->
  In c (tr_cases t) ->
  exists r n',
    convert_report_format clk json n = (inr r, n') /\
    exists p T k,
      In p (phases r) /\ phase_name p = obj_type /\
      In T (tests p) /\ In k (cases T) /\
      case_name k = cr_name c /\
      case_status k =
        match cr_status c with
        | 1 => Some PASS
        | 0 => Some SKIP
        | -1 => Some FAIL
        | 2 => Some UNKNOWN
        | _ => None
        end.
Proof.
  intros Hall Hty Hobjects Hid Htests Ht Hres Hc.
  destruct (convert_report_format_run clk json n Hall) as (r & n' & Hrun & HF & _).
  exists r, n'. split; [exact Hrun|].
  destruct (Forall2_In_l _ _ _ _ HF Hty)
    as (p & Hp & Hname & objects' & per_object & Hget' & Htp & Hper).
  assert (objects' = objects) by congruence. subst objects'.
  destruct (Forall2_In_l _ _ _ _ Hper Hid)
    as (Ts & HTs & server_tests' & Hget'' & rounds & HTs_eq & Hrounds).
  assert (server_tests' = server_tests) by congruence. subst server_tests'.
  destruct (Forall2_In_l _ _ _ "p" Hrounds (or_introl eq_refl))
    as (round & Hround & Hconv).
  destruct (Forall2_In_l _ _ _ _ Hconv Ht) as (T & HT & _ & _ & _ & Hcases).
  destruct (Z.eqb_spec (tr_result t) 0) as [|_]; [contradiction|].
  destruct (Forall2_In_l _ _ _ _ Hcases Hc) as (k & Hk & Hkn & _ & _ & _ & Hst).
  exists p, T, k. repeat split; auto.
  - rewrite Htp. apply in_concat. exists Ts. split; [exact HTs|].
    rewrite HTs_eq. apply in_concat. exists round. auto.
  - rewrite Hst. unfold status_of_code.
    destruct (cr_status c) as [|q|q]; [reflexivity| |destruct q; reflexivity].
    destruct q as [q|q|]; [reflexivity | destruct q; reflexivity | reflexivity].
Qed.

(** C2, amended, at the case with status code 5: a report, and no status. *)
Lemma convert_report_format_case_status_witness :
  has_object_types tree_unmapped_status /\
  exists r n',
    convert_report_format clock0 tree_unmapped_status 0%nat = (inr r, n') /\
    exists p T k,
      In p (phases r) /\ phase_name p = "projects" /\
      In T (tests p) /\ In k (cases T) /\
      case_name k = "status code" /\
      case_status k = None.
Proof.
  split.
  - apply tree_of_has_object_types.
  - apply (convert_report_format_case_status clock0 tree_unmapped_status 0%nat
             "projects" "43378a5d48364f9d8cf3c3d5104df560"
             [("43378a5d48364f9d8cf3c3d5104df560", [project_get_test (-1) 5])]
             [project_get_test (-1) 5] (project_get_test (-1) 5) (case_404 5)).
    + apply tree_of_has_object_types.
    + simpl; auto.
    + reflexivity.
    + simpl; auto.
    + reflexivity.
    + simpl; auto.
    + simpl; lia.
    + simpl; auto.
Defined.

(** C3. Evaluation at the failing input: for a tree with one project and
    one TestRecord, the phase "projects" of the report has eleven Tests, one
    per character of [available_tests], where the specification has one. *)
Theorem convert_report_format_repeats_tests :
  (exists r,
     fst (convert_report_format clock0 tree_single_test 0%nat) = inr r /\
     map (fun p => (phase_name p, map test_name (tests p))) (phases r) =
       [("projects", repeat "project_get" 11);
        ("studies", []); ("expressions", []); ("continuous", [])]) /\
  ~ one_test_per_record clock0 tree_single_test.
Proof.
  split.
  - eexists. split; reflexivity.
  - intros H.
    specialize (H _ "projects" _
                  {| phase_name := "projects";
                     phase_start_time := Some (clock0 1%nat);
                     phase_end_time := Some (clock0 24%nat);
                     tests := _ |}
                  eq_refl eq_refl (or_introl eq_refl) eq_refl).
    discriminate H.
Qed.

(** C4, as the specification words it, fails: the Test of a TestRecord that
    passed (result 1) and carries a CaseRecord has a Case. *)
Lemma passing_test_keeps_cases :
  ~ cases_iff_not_pass clock0 (project_get_test 1 1).
Proof.
  intros H. specialize (H _ eq_refl). discriminate H.
Qed.

(** C4, amended. For every TestRecord the conversion returns a Test; its
    Cases are the conversions of the CaseRecords, in order and with the
    audit entries as log messages, if and only if the result is not 0
    (skip); a TestRecord with result 0 gives a Test with no Cases. *)
Theorem convert_test_cases (clk : clock) (t : TestRecord) (n : nat) :
  exists T n',
    convert_test clk t n = (inr T, n') /\
    if tr_result t =? 0 then cases T = []
    else Forall2
           (fun c k =>
              case_name k = cr_name c /\
              case_description k = cr_description c /\
              case_message k = cr_summary c /\
              log_messages k = cr_audit c)
           (tr_cases t) (cases T).
Proof.
  destruct (convert_test_run clk t n) as (T & n' & Hrun & _ & _ & _ & Hcases).
  exists T, n'. split; [exact Hrun|].
  destruct (tr_result t =? 0); [exact Hcases|].
  eapply Forall2_impl; [|exact Hcases].
  intros c k (H1 & H2 & H3 & H4 & _). auto.
Qed.

(** *** The report does not depend on the clock *)

Lemma agree_ret {A : Type} (R : A -> A -> Prop) (a1 a2 : A) :
  R a1 a2 -> agree R (ret a1) (ret a2).
Proof. intros H n1 n2. exact H. Qed.

Lemma agree_raise {A : Type} (R : A -> A -> Prop) (e : exn) :
  agree R (raise e) (raise e).
Proof. intros n1 n2. reflexivity. Qed.

Lemma agree_bind {A B : Type} (R : A -> A -> Prop) (Q : B -> B -> Prop)
    (m1 m2 : M nat A) (f1 f2 : A -> M nat B) :
  agree R m1 m2 ->
  (forall a1 a2, R a1 a2 -> agree Q (f1 a1) (f2 a2)) ->
  agree Q (bind m1 f1) (bind m2 f2).
Proof.
  intros Hm Hf n1 n2. unfold bind. specialize (Hm n1 n2).
  destruct (m1 n1) as [[e1|a1] s1], (m2 n2) as [[e2|a2] s2]; simpl in *;
    try contradiction; auto.
  apply Hf. exact Hm.
Qed.

Lemma agree_now (clk1 clk2 : clock) :
  agree (fun _ _ => True) (now clk1) (now clk2).
Proof. intros n1 n2. exact I. Qed.

Lemma agree_subscript {V : Type} (d : dict V) (k : string) :
  agree eq (subscript d k) (subscript d k).
Proof.
  intros n1 n2. unfold subscript. destruct (Dict.get d k); reflexivity.
Qed.

Lemma agree_for_collect {X B : Type} (R : B -> B -> Prop) (xs : list X)
    (body1 body2 : X -> M nat (list B)) :
  (forall x, agree (Forall2 R) (body1 x) (body2 x)) ->
  agree (Forall2 R) (for_collect xs body1) (for_collect xs body2).
Proof.
  intros Hbody. induction xs as [|x xs IH]; simpl.
  - apply agree_ret. constructor.
  - eapply agree_bind; [apply Hbody | intros bs1 bs2 Hbs].
    eapply agree_bind; [apply IH | intros bs1' bs2' Hbs'].
    apply agree_ret. now apply Forall2_app.
Qed.

Lemma agree_convert_case (clk1 clk2 : clock) (c : CaseRecord) :
  agree (fun k1 k2 => erase_case k1 = erase_case k2)
    (convert_case clk1 c) (convert_case clk2 c).
Proof.
  unfold convert_case.
  eapply agree_bind; [apply agree_now | intros t1 t2 _].
  apply agree_ret. reflexivity.
Qed.

Lemma agree_convert_test (clk1 clk2 : clock) (t : TestRecord) :
  agree (fun T1 T2 => erase_test T1 = erase_test T2)
    (convert_test clk1 t) (convert_test clk2 t).
Proof.
  unfold convert_test.
  eapply agree_bind with (R := Forall2 (fun k1 k2 => erase_case k1 = erase_case k2)).
  - destruct (negb (tr_result t =? 0)).
    + apply agree_for_collect. intros c.
      eapply agree_bind; [apply agree_convert_case | intros k1 k2 Hk].
      apply agree_ret. now constructor.
    + apply agree_ret. constructor.
  - intros ks1 ks2 Hks.
    eapply agree_bind; [apply agree_now | intros t1 t2 _].
    apply agree_ret. unfold erase_test. simpl.
    now rewrite (Forall2_map_eq _ _ _ _ Hks).
Qed.

Lemma agree_convert_object (clk1 clk2 : clock) (server_tests : list TestRecord) :
  agree (Forall2 (fun T1 T2 => erase_test T1 = erase_test T2))
    (convert_object clk1 server_tests) (convert_object clk2 server_tests).
Proof.
  unfold convert_object.
  apply agree_for_collect. intros _.
  apply agree_for_collect. intros t.
  eapply agree_bind; [apply agree_convert_test | intros T1 T2 HT].
  apply agree_ret. now constructor.
Qed.

Lemma agree_convert_phase (clk1 clk2 : clock) (json1 json2 : Json) (obj_type : string) :
  test_results json1 = test_results json2 ->
  agree (fun p1 p2 => erase_phase p1 = erase_phase p2)
    (convert_phase clk1 json1 obj_type) (convert_phase clk2 json2 obj_type).
Proof.
  intros Htr. unfold convert_phase. rewrite Htr.
  eapply agree_bind; [apply agree_now | intros t1 t2 _].
  eapply agree_bind; [apply agree_subscript | intros objects ? <-].
  eapply agree_bind
    with (R := Forall2 (fun T1 T2 => erase_test T1 = erase_test T2)).
  - apply agree_for_collect. intros obj_id.
    eapply agree_bind; [apply agree_subscript | intros objects' ? <-].
    eapply agree_bind; [apply agree_subscript | intros server_tests ? <-].
    apply agree_convert_object.
  - intros Ts1 Ts2 HTs.
    eapply agree_bind; [apply agree_now | intros t1' t2' _].
    apply agree_ret. unfold erase_phase. simpl.
    now rewrite (Forall2_map_eq _ _ _ _ HTs).
Qed.

(** Two conversions of trees with the same "server_name", "base_url" and
    "test_results" agree up to timestamps, whatever their clocks. *)
Lemma agree_convert_report_format (clk1 clk2 : clock) (json1 json2 : Json) :
  server_name json1 = server_name json2 ->
  base_url json1 = base_url json2 ->
  test_results json1 = test_results json2 ->
  agree (fun r1 r2 => erase_report r1 = erase_report r2)
    (convert_report_format clk1 json1) (convert_report_format clk2 json2).
Proof.
  intros Hs Hb Htr. unfold convert_report_format.
  eapply agree_bind; [apply agree_now | intros t1 t2 _].
  eapply agree_bind
    with (R := Forall2 (fun p1 p2 => erase_phase p1 = erase_phase p2)).
  - apply agree_for_collect. intros obj_type.
    eapply agree_bind; [now apply agree_convert_phase | intros p1 p2 Hp].
    apply agree_ret. now constructor.
  - intros ps1 ps2 Hps.
    eapply agree_bind; [apply agree_now | intros t1' t2' _].
    apply agree_ret. unfold erase_report. simpl.
    now rewrite Hs, Hb, (Forall2_map_eq _ _ _ _ Hps).
Qed.

Lemma agree_converted (clk1 clk2 : clock) (json1 json2 : Json) (n1 n2 : nat) :
  agree (fun r1 r2 => erase_report r1 = erase_report r2)
    (convert_report_format clk1 json1) (convert_report_format clk2 json2) ->
  converted clk1 json1 n1 = converted clk2 json2 n2.
Proof.
  intros H. specialize (H n1 n2). unfold converted.
  destruct (fst (convert_report_format clk1 json1 n1)),
           (fst (convert_report_format clk2 json2 n2));
    try contradiction; congruence.
Qed.

(** C7. Converting the same raw result tree twice, at any two times, gives
    the same outcome up to timestamps: the same exception, or two reports
    that are equal once the start and end times of the Report and of every
    Phase, Test and Case are put aside. *)
Theorem convert_report_format_twice
    (clk1 clk2 : clock) (n1 n2 : nat) (json : Json) :
  converted clk1 json n1 = converted clk2 json n2.
Proof.
  apply agree_converted.
  apply agree_convert_report_format; reflexivity.
Qed.

(** C10. The converter does not read "high_level_summary": two trees that
    agree on "server_name", "base_url" and "test_results" are converted to
    the same outcome up to timestamps, whatever their summaries. *)
Theorem convert_report_format_ignores_summary
    (clk1 clk2 : clock) (n1 n2 : nat) (json1 json2 : Json) :
  server_name json1 = server_name json2 ->
  base_url json1 = base_url json2 ->
  test_results json1 = test_results json2 ->
  converted clk1 json1 n1 = converted clk2 json2 n2.
Proof.
  intros Hs Hb Htr.
  apply agree_converted.
  now apply agree_convert_report_format.
Qed.

(** C10 at a tree before and after an aggregation, on two clocks. *)
Lemma convert_report_format_ignores_summary_witness :
  high_level_summary tree_single_test <> high_level_summary tree_with_summary /\
  converted clock0 tree_single_test 0%nat =
  converted clock1 tree_with_summary 7%nat.
Proof.
  split; [discriminate|].
  apply (convert_report_format_ignores_summary clock0 clock1 0%nat 7%nat
           tree_single_test tree_with_summary);
    reflexivity.
Defined.

(** ** The report command *)

(** A string of decimal digits passes the check of line 120. *)
Lemma decimal_digits_isdigit (s : string) :
  decimal_digits s = true -> isdigit s = true.
Proof.
  destruct s as [|c s]; [discriminate|].
  unfold decimal_digits, isdigit.
  generalize (list_ascii_of_string (String c s)). intros l.
  induction l as [|a l IH]; simpl; [reflexivity|].
  intros H. apply andb_true_iff in H as [Ha Hl].
  rewrite (IH Hl), andb_true_r. unfold isdigit_char.
  rewrite Ha. reflexivity.
Qed.

(** X13. Without a configuration file, or with an uptime that fails
    [isdigit()], the command prints the usage and leaves with exit code 1;
    it has parsed nothing, touched no file and run no test. *)
Lemma report_rejects_arguments (w : World) (a : Args) :
  not_given (user_config a) = true \/ isdigit (uptime a) = false ->
  rejected_before_tests (report w a) /\
  forall e, In e (fst (report w a)) ->
    match e with
    | Log _ | Echo_usage | Print _ => True
    | _ => False
    end.
Proof.
  intros H. unfold report, report_body.
  destruct (not_given (user_config a)) eqn:Hcfg.
  - cbn. unfold rejected_before_tests. cbn. repeat split; auto.
    + intros server [Hin|[Hin|[Hin|[]]]]; discriminate Hin.
    + intros e [<-|[<-|[<-|[]]]]; exact I.
  - destruct H as [H|H]; [discriminate|].
    unfold raise_if at 1. unfold bind at 1. cbn [emit ret].
    unfold bind at 1. cbn [emit ret]. unfold bind at 1. cbn [emit ret].
    rewrite H. cbn. unfold rejected_before_tests. cbn. repeat split; auto.
    + intros server [Hin|[Hin|[Hin|[Hin|[]]]]]; discriminate Hin.
    + intros e [<-|[<-|[<-|[<-|[]]]]]; exact I.
Qed.

(** Without [-c] the command stops at line 111, whatever the uptime. *)
Example report_without_config :
  report world0 args_no_config =
    ([Log "starting RNAGet compliance testing";
      Echo_usage;
      Print (String "010" ""
             ++ "No user config file provided. Specify path to yaml file with -c"
             ++ String "010" "")%string],
     Exit 1).
Proof. reflexivity. Qed.

(** C8. Evaluation at the failing input: with a valid configuration and
    the uptime SUPERSCRIPT TWO, which is not a string of decimal digits,
    the check of line 120 passes, the tests run and the command returns;
    no usage message is printed and the exit code is not 1. *)
Theorem report_accepts_superscript_uptime :
  decimal_digits (uptime args_superscript_uptime) = false /\
  isdigit (uptime args_superscript_uptime) = true /\
  int_of_digits (uptime args_superscript_uptime) = None /\
  snd (report world0 args_superscript_uptime) = Returned /\
  In (Run_tests "Server A") (fst (report world0 args_superscript_uptime)) /\
  ~ rejected_before_tests (report world0 args_superscript_uptime).
Proof.
  split; [reflexivity|]. split; [reflexivity|]. split; [reflexivity|].
  split; [reflexivity|]. split.
  - vm_compute. auto 10.
  - intros (Hexit & _). discriminate Hexit.
Qed.

(** * Further properties of the code *)

(** ** The aggregator, on every tree *)

Lemma summarise_names_stored (server_tests : list TestRecord) (names : list string) :
  forall st,
    for_each names (summarise_name server_tests) st =
      (inr tt,
       {| local_summary := stored_passes (local_summary st) names;
          scanned := scanned st |}).
Proof.
  induction names as [|nm names IH]; intros st; simpl.
  - now destruct st.
  - unfold bind at 1. simpl. rewrite IH. simpl.
    now rewrite rollup_is_pass.
Qed.

(** Storing the passes again changes nothing. *)
Lemma stored_passes_fixed (h : dict SummaryEntry) :
  h = Dict.empty \/ h = all_pass_summary ->
  stored_passes h (iter_str available_tests) = all_pass_summary.
Proof. intros [->| ->]; reflexivity. Qed.

Lemma set_high_level_summary_twice (json : Json) (h : dict SummaryEntry) :
  set_high_level_summary (set_high_level_summary json h) h =
  set_high_level_summary json h.
Proof. reflexivity. Qed.

Lemma scan_object_fixed (obj_type obj_id : string) (objects : dict (list TestRecord)) :
  forall st,
    Dict.get (test_results (scanned st)) obj_type = Some objects ->
    In obj_id (Dict.keys objects) ->
    local_summary st = Dict.empty \/ local_summary st = all_pass_summary ->
    scan_object obj_type obj_id st =
      (inr tt,
       {| local_summary := all_pass_summary;
          scanned := set_high_level_summary (scanned st) all_pass_summary |}).
Proof.
  intros st Hty Hid Hlocal.
  destruct (get_of_key objects obj_id Hid) as (server_tests & Hget).
  unfold scan_object.
  rewrite (bind_run get_state _ st st st eq_refl).
  rewrite (bind_run _ _ st st objects (subscript_run _ _ _ st Hty)).
  rewrite (bind_run _ _ st st server_tests (subscript_run _ _ _ st Hget)).
  rewrite (bind_run _ _ _ _ _ (summarise_names_stored server_tests _ st)).
  cbv [attach_summary bind get_state put_state].
  cbn [local_summary scanned].
  now rewrite (stored_passes_fixed _ Hlocal).
Qed.

Lemma scan_objects_fixed (obj_type : string) (objects : dict (list TestRecord))
    (ids : list string) :
  (forall id, In id ids -> In id (Dict.keys objects)) ->
  forall st,
    Dict.get (test_results (scanned st)) obj_type = Some objects ->
    local_summary st = Dict.empty \/ local_summary st = all_pass_summary ->
    for_each ids (scan_object obj_type) st =
      (inr tt,
       match ids with
       | [] => st
       | _ :: _ =>
           {| local_summary := all_pass_summary;
              scanned := set_high_level_summary (scanned st) all_pass_summary |}
       end).
Proof.
  induction ids as [|id ids IH]; intros Hsub st Hty Hlocal; [reflexivity|].
  cbn [for_each].
  rewrite (bind_run _ _ _ _ _
             (scan_object_fixed obj_type id objects st Hty
                (Hsub id (or_introl eq_refl)) Hlocal)).
  rewrite (IH (fun i Hi => Hsub i (or_intror Hi))); [| exact Hty | now right].
  destruct ids; reflexivity.
Qed.

(** The loop over the object types, in full: where it ends, and what it
    leaves in the local dictionary and in the argument. *)
Lemma scan_object_types_fixed (types : list string) :
  forall st,
    local_summary st = Dict.empty \/ local_summary st = all_pass_summary ->
    for_each types scan_object_type st =
      (match first_missing (test_results (scanned st)) types with
       | Some ty => inl (KeyError ty)
       | None => inr tt
       end,
       if reaches_object (test_results (scanned st)) types
       then {| local_summary := all_pass_summary;
               scanned := set_high_level_summary (scanned st) all_pass_summary |}
       else st).
Proof.
  induction types as [|ty types IH]; intros st Hlocal; [reflexivity|].
  cbn [for_each first_missing reaches_object].
  destruct (Dict.get (test_results (scanned st)) ty) as [objects|] eqn:Hty.
  - assert (Hrun : scan_object_type ty st =
                     (inr tt,
                      match objects with
                      | [] => st
                      | _ :: _ =>
                          {| local_summary := all_pass_summary;
                             scanned := set_high_level_summary (scanned st)
                                          all_pass_summary |}
                      end)).
    { unfold scan_object_type.
      rewrite (bind_run get_state _ st st st eq_refl).
      rewrite (bind_run _ _ st st objects (subscript_run _ _ _ st Hty)).
      rewrite (scan_objects_fixed ty objects (Dict.keys objects)
                 (fun _ H => H) st Hty Hlocal).
      destruct objects; reflexivity. }
    rewrite (bind_run _ _ _ _ _ Hrun).
    destruct objects as [|o objects].
    + apply IH. exact Hlocal.
    + rewrite IH by now right. cbn [scanned local_summary].
      change (test_results (set_high_level_summary (scanned st) all_pass_summary))
        with (test_results (scanned st)).
      destruct (reaches_object (test_results (scanned st)) types); reflexivity.
  - unfold scan_object_type.
    unfold bind at 1. rewrite (bind_run get_state _ st st st eq_refl).
    unfold bind, subscript. rewrite Hty. reflexivity.
Qed.

(** The call in full. *)
Lemma scan_for_errors_fixed (json : Json) :
  scan_for_errors json =
    (if reaches_object (test_results json) scanned_types
     then set_high_level_summary json all_pass_summary
     else json,
     option_map KeyError (first_missing (test_results json) scanned_types)).
Proof.
  unfold scan_for_errors.
  rewrite (scan_object_types_fixed scanned_types
             {| local_summary := Dict.empty; scanned := json |}
             (or_introl eq_refl)).
  cbn [scanned].
  destruct (reaches_object (test_results json) scanned_types),
           (first_missing (test_results json) scanned_types); reflexivity.
Qed.

(** X1. The summary never reflects a test result. Whatever the TestRecords
    are, after the call "high_level_summary" is the fixed summary with
    result 1 under each character of "project_get" if the walk over
    projects, studies, expressions came to an object, and what it was
    before the call if not. *)
Theorem scan_for_errors_summary_is_fixed (json : Json) :
  high_level_summary (fst (scan_for_errors json)) =
    if reaches_object (test_results json) scanned_types
    then Some all_pass_summary
    else high_level_summary json.
Proof.
  rewrite scan_for_errors_fixed. cbn [fst].
  destruct (reaches_object (test_results json) scanned_types); reflexivity.
Qed.

(** X2. The call ends with a KeyError on the first of projects, studies,
    expressions that "test_results" lacks, and normally when it lacks
    none; "continuous" is never looked up. *)
Theorem scan_for_errors_outcome (json : Json) :
  snd (scan_for_errors json) =
    option_map KeyError (first_missing (test_results json) scanned_types) /\
  (snd (scan_for_errors json) = None <-> has_scanned_types json).
Proof.
  rewrite scan_for_errors_fixed. cbn [snd]. split; [reflexivity|].
  unfold has_scanned_types, scanned_types. cbn [first_missing].
  split.
  - intros H ty [<-|[<-|[<-|[]]]];
      destruct (Dict.get (test_results json) "projects");
      destruct (Dict.get (test_results json) "studies");
      destruct (Dict.get (test_results json) "expressions");
      try discriminate H; discriminate.
  - intros H.
    destruct (get_not_none _ _ (H "projects" (or_introl eq_refl))) as (? & ->).
    destruct (get_not_none _ _ (H "studies" (or_intror (or_introl eq_refl))))
      as (? & ->).
    destruct (get_not_none _ _
                (H "expressions" (or_intror (or_intror (or_introl eq_refl)))))
      as (? & ->).
    reflexivity.
Qed.

(** X3. Aggregating twice is aggregating once: a second call leaves the
    dictionary as the first left it and ends the same way. *)
Theorem scan_for_errors_idempotent (json : Json) :
  scan_for_errors (fst (scan_for_errors json)) = scan_for_errors json.
Proof.
  rewrite (scan_for_errors_fixed json). cbn [fst].
  destruct (reaches_object (test_results json) scanned_types) eqn:Hreach.
  - rewrite scan_for_errors_fixed.
    change (test_results (set_high_level_summary json all_pass_summary))
      with (test_results json).
    rewrite Hreach. reflexivity.
  - rewrite scan_for_errors_fixed. rewrite Hreach. reflexivity.
Qed.

(** X4. Aggregating before converting does not change the report: the
    conversion of the dictionary the aggregator leaves and the conversion
    of the dictionary it was given have the same outcome up to timestamps. *)
Theorem convert_after_scan (clk1 clk2 : clock) (n1 n2 : nat) (json : Json) :
  converted clk1 (fst (scan_for_errors json)) n1 = converted clk2 json n2.
Proof.
  apply agree_converted.
  rewrite scan_for_errors_fixed. cbn [fst].
  destruct (reaches_object (test_results json) scanned_types);
    apply agree_convert_report_format; reflexivity.
Qed.

(** ** The converter, on every tree *)

Lemma convert_phase_missing (clk : clock) (json : Json) (obj_type : string) (n : nat) :
  Dict.get (test_results json) obj_type = None ->
  convert_phase clk json obj_type n = (inl (KeyError obj_type), S n).
Proof.
  intros Hty. unfold convert_phase.
  rewrite (bind_run (now clk) _ n (S n) (clk n) eq_refl).
  unfold bind, subscript. rewrite Hty. reflexivity.
Qed.

Lemma convert_phases_outcome (clk : clock) (json : Json) (types : list string) :
  forall n,
    match first_missing (test_results json) types with
    | Some ty =>
        fst (for_collect types
               (fun obj_type => p <- convert_phase clk json obj_type ;; ret [p]) n)
        = inl (KeyError ty)
    | None =>
        exists ps n',
          for_collect types
            (fun obj_type => p <- convert_phase clk json obj_type ;; ret [p]) n
          = (inr ps, n')
    end.
Proof.
  induction types as [|ty types IH]; intros n; cbn [first_missing for_collect].
  - eexists; eexists; reflexivity.
  - destruct (Dict.get (test_results json) ty) as [objects|] eqn:Hty.
    + destruct (convert_phase_run clk json ty n) as (p & n1 & Hrun & _);
        [congruence|].
      assert (Hone : (p <- convert_phase clk json ty ;; ret [p]) n = (inr [p], n1)).
      { unfold bind. rewrite Hrun. reflexivity. }
      rewrite (bind_run _ _ _ _ _ Hone).
      specialize (IH n1).
      destruct (first_missing (test_results json) types) as [ty'|].
      * unfold bind at 1.
        destruct (for_collect types _ n1) as [[e|ps] n2]; cbn [fst] in *;
          [now injection IH as -> | discriminate IH].
      * destruct IH as (ps & n2 & Hps).
        exists (p :: ps), n2. unfold bind at 1. rewrite Hps. reflexivity.
    + unfold bind at 1. unfold bind at 1.
      rewrite (convert_phase_missing clk json ty n Hty). reflexivity.
Qed.

(** X5. The conversion raises a KeyError on the first of projects, studies,
    expressions, continuous that "test_results" lacks, and returns a report
    when it lacks none: nothing else in a tree makes it raise. *)
Theorem convert_report_format_outcome (clk : clock) (json : Json) (n : nat) :
  match first_missing (test_results json) object_types with
  | Some obj_type =>
      fst (convert_report_format clk json n) = inl (KeyError obj_type)
  | None => exists r, fst (convert_report_format clk json n) = inr r
  end.
Proof.
  pose proof (convert_phases_outcome clk json object_types (S n)) as H.
  unfold convert_report_format.
  rewrite (bind_run (now clk) _ n (S n) (clk n) eq_refl).
  destruct (first_missing (test_results json) object_types) as [ty|].
  - unfold bind at 1.
    destruct (for_collect object_types _ (S n)) as [[e|ps] n1]; cbn [fst] in *;
      [now injection H as -> | discriminate H].
  - destruct H as (ps & n1 & Hps).
    rewrite (bind_run _ _ _ _ _ Hps). eexists. reflexivity.
Qed.

(** *** Clock readings *)

Lemma bind_inr {S A B : Type} (m : M S A) (f : A -> M S B) (s s' : S) (b : B) :
  bind m f s = (inr b, s') ->
  exists a s1, m s = (inr a, s1) /\ f a s1 = (inr b, s').
Proof.
  unfold bind. destruct (m s) as [[e|a] s1]; [discriminate|]. eauto.
Qed.








(** *** The Tests of a phase *)

Lemma round_test_names (server_tests : list TestRecord) (round : list Test) :
  Forall2 test_converts_to server_tests round ->
  map test_name round = map tr_name server_tests.
Proof.
  intros H. symmetry. apply Forall2_map_eq.
  eapply Forall2_impl; [|exact H]. intros t T (Hn & _). now symmetry.
Qed.

Lemma object_test_names (server_tests : list TestRecord) (Ts : list Test) :
  object_converts_to server_tests Ts ->
  map test_name Ts = concat (repeat (map tr_name server_tests) 11).
Proof.
  intros (rounds & -> & HF).
  change 11%nat with (length (iter_str available_tests)).
  induction HF as [|nm round names rounds Hround _ IH]; [reflexivity|].
  cbn [concat length repeat]. rewrite map_app, IH.
  now rewrite (round_test_names _ _ Hround).
Qed.

Lemma phase_test_names_converted (json : Json) (obj_type : string) (p : Phase) :
  phase_converts_to json obj_type p ->
  map test_name (tests p) = phase_test_names json obj_type.
Proof.
  intros (_ & objects & per_object & Hget & -> & HF).
  unfold phase_test_names. rewrite Hget.
  remember (Dict.keys objects) as ids eqn:E. clear E.
  induction HF as [|id Ts ids per_object (server_tests & Hid & Hobj) _ IH];
    [reflexivity|].
  cbn [concat flat_map]. rewrite map_app, IH, Hid.
  now rewrite (object_test_names _ _ Hobj).
Qed.

(** X7. On a tree that has the four object types, the Tests of each phase
    are, by name and in order: for each object of the type in the order of
    its keys, eleven runs (one per character of "project_get") of the
    TestRecords of the object in their order. *)
Theorem convert_report_format_test_names (clk : clock) (json : Json) (n : nat) :
  has_object_types json ->
  exists r n',
    convert_report_format clk json n = (inr r, n') /\
    Forall2
      (fun obj_type p =>
         phase_name p = obj_type /\
         map test_name (tests p) = phase_test_names json obj_type)
      object_types (phases r).
Proof.
  intros Hall.
  destruct (convert_report_format_run clk json n Hall) as (r & n' & Hrun & HF & _).
  exists r, n'. split; [exact Hrun|].
  eapply Forall2_impl; [|exact HF].
  intros ty p Hp. split; [apply Hp|].
  now apply phase_test_names_converted.
Qed.

(** X7 at a tree with two TestRecords under one project. *)
Lemma convert_report_format_test_names_witness :
  has_object_types (tree_of [project_get_test 1 1; project_get_test 0 0]) /\
  exists r n',
    convert_report_format clock0
      (tree_of [project_get_test 1 1; project_get_test 0 0]) 0%nat
    = (inr r, n') /\
    Forall2
      (fun obj_type p =>
         phase_name p = obj_type /\
         map test_name (tests p) =
           phase_test_names
             (tree_of [project_get_test 1 1; project_get_test 0 0]) obj_type)
      object_types (phases r).
Proof.
  split.
  - apply tree_of_has_object_types.
  - apply (convert_report_format_test_names clock0
             (tree_of [project_get_test 1 1; project_get_test 0 0]) 0%nat).
    apply tree_of_has_object_types.
Defined.

(** *** Which times the converter sets *)






(** ** The report command, in every world *)

Lemma emits_only_ret {A : Type} (P : event -> Prop) (a : A) :
  emits_only P (ret a).
Proof. intros trace H. exact H. Qed.

Lemma emits_only_raise {A : Type} (P : event -> Prop) (e : exn) :
  emits_only P (@raise _ A e).
Proof. intros trace H. exact H. Qed.

Lemma emits_only_emit (P : event -> Prop) (e : event) :
  P e -> emits_only P (emit e).
Proof.
  intros He trace H. cbn. apply Forall_app. split; [exact H | now constructor].
Qed.

Lemma emits_only_bind {A B : Type} (P : event -> Prop)
    (m : M (list event) A) (f : A -> M (list event) B) :
  emits_only P m ->
  (forall a trace trace', m trace = (inr a, trace') -> emits_only P (f a)) ->
  emits_only P (bind m f).
Proof.
  intros Hm Hf trace H. unfold bind. specialize (Hm trace H).
  destruct (m trace) as [[e|a] trace'] eqn:Hrun; cbn in *; [exact Hm|].
  eapply Hf; eauto.
Qed.

Lemma emits_only_when (P : event -> Prop) (c : bool) (m : M (list event) unit) :
  (c = true -> emits_only P m) -> emits_only P (when c m).
Proof.
  intros H. destruct c; [now apply H | apply emits_only_ret].
Qed.

Lemma emits_only_raise_if (P : event -> Prop) (c : bool) (e : exn) :
  emits_only P (@raise_if (list event) c e).
Proof. destruct c; [apply emits_only_raise | apply emits_only_ret]. Qed.

Lemma emits_only_of_sum {A : Type} (P : event -> Prop) (r : exn + A) :
  emits_only P (@of_sum (list event) A r).
Proof. destruct r; [apply emits_only_raise | apply emits_only_ret]. Qed.

Lemma raise_if_inr {S : Type} (c : bool) (e : exn) (s s' : S) (u : unit) :
  raise_if c e s = (inr u, s') -> c = false /\ s' = s.
Proof. destruct c; intros H; inversion H; auto. Qed.

Lemma of_sum_inr {S A : Type} (r : exn + A) (s s' : S) (a : A) :
  of_sum r s = (inr a, s') -> r = inr a /\ s' = s.
Proof. destruct r; intros H; inversion H; auto. Qed.

(** What the handlers add to the trace is printed. *)
Lemma handle_emits (P : event -> Prop) (trace : list event) (e : exn) :
  P Echo_usage -> (forall msg, P (Print msg)) ->
  Forall P trace -> Forall P (fst (handle trace e)).
Proof.
  intros Hu Hp H.
  destruct e; cbn; try exact H;
    (apply Forall_app; split; [exact H | repeat constructor; auto]).
Qed.

Lemma report_emits (P : event -> Prop) (w : World) (a : Args) :
  P Echo_usage -> (forall msg, P (Print msg)) -> (forall msg, P (Log msg)) ->
  emits_only P (report_body w a) ->
  forall e, In e (fst (report w a)) -> P e.
Proof.
  intros Hu Hp Hl Hbody. apply Forall_forall.
  unfold report.
  assert (H : Forall P
                (snd ((emit (Log "starting RNAGet compliance testing") ;;
                       report_body w a) []))).
  { apply emits_only_bind; [apply emits_only_emit, Hl | auto | constructor]. }
  destruct ((emit (Log "starting RNAGet compliance testing") ;;
             report_body w a) []) as [[e|u] trace]; cbn [snd] in H.
  - now apply handle_emits.
  - exact H.
Qed.

Lemma test_report_steps (w : World) (a : Args) (cfg : Config) :
  parse_and_validate w (config_path a) = inr cfg ->
  emits_only (step_requested w a) (test_report w cfg).
Proof.
  intros Hcfg. unfold test_report.
  apply emits_only_bind; [|intros _ ? ? _].
  { apply emits_only_when. intros Htoken. apply emits_only_emit.
    destruct (cfg_token cfg) as [[|c token]|] eqn:Ht; try discriminate Htoken.
    exists cfg, (String c token). repeat split; auto. discriminate. }
  apply emits_only_bind; [apply emits_only_emit; exact I | intros _ ? ? _].
  apply emits_only_bind; [apply emits_only_emit; exact I | intros _ ? ? _].
  apply emits_only_of_sum.
Qed.

Lemma report_body_steps (w : World) (a : Args) :
  emits_only (step_requested w a) (report_body w a).
Proof.
  unfold report_body.
  apply emits_only_bind; [apply emits_only_raise_if | intros _ ? ? _].
  cbv zeta.
  apply emits_only_bind; [apply emits_only_emit; exact I | intros _ ? ? _].
  apply emits_only_bind; [apply emits_only_raise_if | intros _ ? ? _].
  apply emits_only_bind; [apply emits_only_of_sum | intros cfg ? ? Hcfg].
  apply of_sum_inr in Hcfg as [Hcfg _].
  apply emits_only_bind; [apply emits_only_raise_if | intros _ ? ? _].
  apply emits_only_bind; [apply emits_only_raise_if | intros _ ? ? _].
  apply emits_only_bind; [|intros _ ? ? _].
  { apply emits_only_when. intros Hc. apply andb_true_iff in Hc as [Hf He].
    apply emits_only_emit. cbn. auto. }
  apply emits_only_bind; [apply emits_only_emit; exact I | intros _ ? ? _].
  apply emits_only_bind; [now apply test_report_steps | intros r ? ? _].
  apply emits_only_bind; [apply emits_only_emit; exact I | intros _ ? ? _].
  apply emits_only_bind; [apply emits_only_emit; exact I | intros _ ? ? _].
  apply emits_only_bind; [|intros _ ? ? _].
  { apply emits_only_when. intros Hc. apply negb_true_iff in Hc.
    apply emits_only_bind; [apply emits_only_emit; exact I | intros _ ? ? _].
    apply emits_only_bind; [|intros _ ? ? _; apply emits_only_emit; exact I].
    apply emits_only_emit. cbn. auto. }
  apply emits_only_bind; [apply emits_only_emit; exact I | intros _ ? ? _].
  destruct (serve a) eqn:Hserve; [|apply emits_only_emit; exact I].
  apply emits_only_bind; [apply emits_only_emit; exact I | intros _ ? ? _].
  destruct (int_of_digits (uptime a)) as [seconds|] eqn:Hint.
  - apply emits_only_emit. cbn. auto.
  - apply emits_only_raise.
Qed.

(** X9. Optional steps happen only on request, in every world and for all
    options: in any run of the command the output directory is removed only
    under [--force] and when it exists, a tarball is made only without
    [--no-tar], the report is served only under [--serve] and for
    [int(uptime)] seconds, and an Authorization header is set only from a
    non-empty token of the parsed configuration, as "Bearer " + token. *)
Theorem report_steps_requested (w : World) (a : Args) (e : event) :
  In e (fst (report w a)) ->
  match e with
  | Rmtree path =>
      force a = true /\ path = resolved_output_dir w a /\
      path_exists w path = true
  | Make_tarball archive dir _ =>
      no_tar a = false /\ dir = resolved_output_dir w a /\
      archive = (resolved_output_dir w a ++ ".tar.gz")%string
  | Serve dir seconds =>
      serve a = true /\ dir = resolved_output_dir w a /\
      int_of_digits (uptime a) = Some seconds
  | Set_authorization value =>
      exists cfg token,
        parse_and_validate w (config_path a) = inr cfg /\
        cfg_token cfg = Some token /\ token <> ""%string /\
        value = ("Bearer " ++ token)%string
  | _ => True
  end.
Proof.
  intros Hin.
  apply (report_emits (step_requested w a) w a); auto; try exact I.
  - intros msg. exact I.
  - intros msg. exact I.
  - apply report_body_steps.
Qed.

(** X9 at a forced, served run in a world where the directory exists. *)
Lemma report_steps_requested_witness :
  In (Rmtree "./rnaget-compliance-results") (fst (report world1 args_force_serve)) /\
  force args_force_serve = true /\
  "./rnaget-compliance-results" = resolved_output_dir world1 args_force_serve /\
  path_exists world1 "./rnaget-compliance-results" = true.
Proof.
  assert (Hin : In (Rmtree "./rnaget-compliance-results")
                  (fst (report world1 args_force_serve))).
  { vm_compute. auto 10. }
  split; [exact Hin|].
  exact (report_steps_requested world1 args_force_serve
           (Rmtree "./rnaget-compliance-results") Hin).
Defined.

Lemma report_body_after_setup (w : World) (a : Args) :
  emits_only (fun e => is_message e \/ exists cfg, setup_passed w a cfg)
    (report_body w a).
Proof.
  unfold report_body.
  apply emits_only_bind; [apply emits_only_raise_if | intros ? ? ? H1].
  apply raise_if_inr in H1 as [H1 _].
  cbv zeta.
  apply emits_only_bind; [apply emits_only_emit; left; exact I | intros _ ? ? _].
  apply emits_only_bind; [apply emits_only_raise_if | intros ? ? ? H2].
  apply raise_if_inr in H2 as [H2 _]. apply negb_false_iff in H2.
  apply emits_only_bind; [apply emits_only_of_sum | intros cfg ? ? Hcfg].
  apply of_sum_inr in Hcfg as [Hcfg _].
  apply emits_only_bind; [apply emits_only_raise_if | intros ? ? ? H3].
  apply raise_if_inr in H3 as [H3 _]. apply negb_false_iff in H3.
  apply emits_only_bind; [apply emits_only_raise_if | intros ? ? ? H4].
  apply raise_if_inr in H4 as [H4 _].
  assert (Hsetup : setup_passed w a cfg).
  { repeat split; auto.
    destruct (force a); [now left | right].
    cbn in H4. apply orb_false_iff in H4. exact H4. }
  assert (Hall : forall e, is_message e \/ exists cfg, setup_passed w a cfg)
    by (intros e; right; eauto).
  apply emits_only_bind; [|intros _ ? ? _].
  { apply emits_only_when. intros _. apply emits_only_emit, Hall. }
  apply emits_only_bind; [apply emits_only_emit, Hall | intros _ ? ? _].
  apply emits_only_bind; [|intros r ? ? _].
  { unfold test_report.
    apply emits_only_bind; [|intros _ ? ? _].
    { apply emits_only_when. intros _. apply emits_only_emit, Hall. }
    apply emits_only_bind; [apply emits_only_emit, Hall | intros _ ? ? _].
    apply emits_only_bind; [apply emits_only_emit, Hall | intros _ ? ? _].
    apply emits_only_of_sum. }
  apply emits_only_bind; [apply emits_only_emit, Hall | intros _ ? ? _].
  apply emits_only_bind; [apply emits_only_emit, Hall | intros _ ? ? _].
  apply emits_only_bind; [|intros _ ? ? _].
  { apply emits_only_when. intros _.
    apply emits_only_bind; [apply emits_only_emit, Hall | intros _ ? ? _].
    apply emits_only_bind; [apply emits_only_emit, Hall | intros _ ? ? _].
    apply emits_only_emit, Hall. }
  apply emits_only_bind; [apply emits_only_emit, Hall | intros _ ? ? _].
  destruct (serve a); [|apply emits_only_emit, Hall].
  apply emits_only_bind; [apply emits_only_emit, Hall | intros _ ? ? _].
  destruct (int_of_digits (uptime a)); [apply emits_only_emit, Hall|].
  apply emits_only_raise.
Qed.

(** X10. Setup errors come before anything is touched: in every world, an
    event of a run that is not a log line, the usage or a printed message
    (a removal or copy of the output directory, the tests, the results
    file, the tarball, the HTML, the server) happens only if all the checks
    of lines 110-149 passed. *)
Theorem report_acts_after_setup (w : World) (a : Args) (e : event) :
  In e (fst (report w a)) ->
  match e with
  | Log _ | Echo_usage | Print _ => True
  | _ => exists cfg, setup_passed w a cfg
  end.
Proof.
  intros Hin.
  assert (H : is_message e \/ exists cfg, setup_passed w a cfg).
  { revert e Hin. apply report_emits.
    - left; exact I.
    - intros msg; left; exact I.
    - intros msg; left; exact I.
    - apply report_body_after_setup. }
  destruct e; cbn in H; try exact I; destruct H as [[]|H]; exact H.
Qed.

(** X10 at the tests of a forced, served run. *)
Lemma report_acts_after_setup_witness :
  In (Run_tests "Server A") (fst (report world1 args_force_serve)) /\
  exists cfg, setup_passed world1 args_force_serve cfg.
Proof.
  assert (Hin : In (Run_tests "Server A") (fst (report world1 args_force_serve))).
  { vm_compute. auto 10. }
  split; [exact Hin|].
  exact (report_acts_after_setup world1 args_force_serve (Run_tests "Server A") Hin).
Defined.

(** X11. The command never leaves with an exit code other than 1, and when
    it leaves with 1 the last things it did were to print the usage and
    then a message. *)
Theorem report_exit_code (w : World) (a : Args) (code : Z) :
  snd (report w a) = Exit code ->
  code = 1 /\
  exists trace msg, fst (report w a) = trace ++ [Echo_usage; Print msg].
Proof.
  unfold report.
  destruct ((emit (Log "starting RNAGet compliance testing") ;;
             report_body w a) []) as [[e|u] trace]; [|discriminate].
  destruct e; cbn; intros H; inversion H; split; eauto.
Qed.

(** X11 at a run without a configuration file. *)
Lemma report_exit_code_witness :
  snd (report world0 args_no_config) = Exit 1 /\
  exists trace msg,
    fst (report world0 args_no_config) = trace ++ [Echo_usage; Print msg].
Proof.
  split; [reflexivity|].
  exact (proj2 (report_exit_code world0 args_no_config 1 eq_refl)).
Defined.

Lemma extends_ret {A : Type} (a : A) : extends_trace (ret a).
Proof.
  intros trace a' trace' H. injection H as _ <-. exists []. now rewrite app_nil_r.
Qed.

Lemma extends_raise {A : Type} (e : exn) : extends_trace (@raise _ A e).
Proof. intros trace a trace' H. discriminate H. Qed.

Lemma extends_emit (e : event) : extends_trace (emit e).
Proof. intros trace a trace' H. injection H as _ <-. eauto. Qed.

Lemma extends_bind {A B : Type} (m : M (list event) A) (f : A -> M (list event) B) :
  extends_trace m -> (forall a, extends_trace (f a)) -> extends_trace (bind m f).
Proof.
  intros Hm Hf trace b trace' H.
  apply bind_inr in H as (a & s1 & H1 & H2).
  destruct (Hm _ _ _ H1) as (more1 & ->).
  destruct (Hf _ _ _ _ H2) as (more2 & ->).
  exists (more1 ++ more2). now rewrite app_assoc.
Qed.

Lemma extends_when (c : bool) (m : M (list event) unit) :
  extends_trace m -> extends_trace (when c m).
Proof. intros H. destruct c; [exact H | apply extends_ret]. Qed.

(** [test_report] that ends normally: the report is the conversion of the
    tree the runner generated, and the tests were the last thing done. *)
Lemma test_report_inr (w : World) (cfg : Config) (trace trace' : list event)
    (r : Report) :
  test_report w cfg trace = (inr r, trace') ->
  fst (convert_report_format (wall_clock w) (run_tests w cfg) 0%nat) = inr r /\
  exists more, trace' = trace ++ more ++ [Run_tests (cfg_server_name cfg)].
Proof.
  unfold test_report. intros H.
  apply bind_inr in H as (u1 & s1 & Hauth & H).
  apply bind_inr in H as (u2 & s2 & Hlog & H).
  apply bind_inr in H as (u3 & s3 & Hrun & H).
  apply of_sum_inr in H as [Hconv ->].
  injection Hlog as _ <-. injection Hrun as _ <-.
  split; [exact Hconv|].
  destruct (extends_when _ _ (extends_emit _) _ _ _ Hauth) as (more & ->).
  exists (more ++ [Log ("starting tests for server: " ++ cfg_server_name cfg)]).
  now rewrite <- !app_assoc.
Qed.

(** X12. A run that returns normally passed every setup check, and did the
    following in this order: it copied the web files to the output
    directory, ran the tests, wrote to the output directory the report
    that [convert_report_format] makes of the tree the runner generated,
    and rendered the HTML. *)
Theorem report_returned (w : World) (a : Args) :
  snd (report w a) = Returned ->
  exists cfg r l1 l2 l3 l4,
    setup_passed w a cfg /\
    fst (convert_report_format (wall_clock w) (run_tests w cfg) 0%nat) = inr r /\
    fst (report w a) =
      l1 ++ [Copytree (resolved_output_dir w a)]
         ++ l2 ++ [Run_tests (cfg_server_name cfg);
                   Write_results (resolved_output_dir w a) (pretty a) r]
         ++ l3 ++ [Render_html (resolved_output_dir w a)]
         ++ l4.
Proof.
  unfold report.
  destruct ((emit (Log "starting RNAGet compliance testing") ;;
             report_body w a) []) as [[e|u] trace] eqn:Hrun;
    [destruct e; discriminate|].
  intros _. cbn [fst].
  apply bind_inr in Hrun as (u0 & s0 & H0 & Hrun).
  unfold report_body in Hrun.
  apply bind_inr in Hrun as (u1 & s1 & H1 & Hrun).
  apply raise_if_inr in H1 as [H1 ->]. cbv zeta in Hrun.
  apply bind_inr in Hrun as (u2 & s2 & Hlog & Hrun).
  apply bind_inr in Hrun as (u3 & s3 & H2 & Hrun).
  apply raise_if_inr in H2 as [H2 ->]. apply negb_false_iff in H2.
  apply bind_inr in Hrun as (cfg & s4 & Hcfg & Hrun).
  apply of_sum_inr in Hcfg as [Hcfg ->].
  apply bind_inr in Hrun as (u5 & s5 & H3 & Hrun).
  apply raise_if_inr in H3 as [H3 ->]. apply negb_false_iff in H3.
  apply bind_inr in Hrun as (u6 & s6 & H4 & Hrun).
  apply raise_if_inr in H4 as [H4 ->].
  apply bind_inr in Hrun as (u7 & s7 & Hrm & Hrun).
  apply bind_inr in Hrun as (u8 & s8 & Hcopy & Hrun).
  apply bind_inr in Hrun as (r & s9 & Htest & Hrun).
  apply bind_inr in Hrun as (u10 & s10 & Hwrite & Hrun).
  apply bind_inr in Hrun as (u11 & s11 & Hdone & Hrun).
  apply bind_inr in Hrun as (u12 & s12 & Htar & Hrun).
  apply bind_inr in Hrun as (u13 & s13 & Hhtml & Hrun).
  apply test_report_inr in Htest as (Hconv & l2 & Hs9).
  assert (Htar' : exists more, s12 = s11 ++ more).
  { eapply extends_when; [|exact Htar].
    repeat (apply extends_bind; [apply extends_emit | intros _]).
    apply extends_emit. }
  assert (Hserve : exists more, trace = s13 ++ more).
  { revert Hrun. destruct (serve a); [|apply extends_emit].
    apply extends_bind; [apply extends_emit | intros _].
    destruct (int_of_digits (uptime a)); [apply extends_emit | apply extends_raise]. }
  destruct Htar' as (ltar & Hs12). destruct Hserve as (l4 & ->).
  injection Hcopy as _ <-. injection Hwrite as _ <-.
  injection Hdone as _ <-. injection Hhtml as _ <-.
  exists cfg, r, s7, l2.
  eexists
    (Log ("all tests complete, results json available at "
          ++ resolved_output_dir w a ++ "/" ++ "results.json") :: ltar), l4.
  split.
  { repeat split; auto.
    destruct (force a); [now left | right].
    cbn in H4. apply orb_false_iff in H4. exact H4. }
  split; [exact Hconv|].
  subst. rewrite <- !app_assoc. reflexivity.
Qed.

(** X12 at a forced, served run. *)
Lemma report_returned_witness :
  snd (report world1 args_force_serve) = Returned /\
  exists cfg r l1 l2 l3 l4,
    setup_passed world1 args_force_serve cfg /\
    fst (convert_report_format (wall_clock world1) (run_tests world1 cfg) 0%nat)
      = inr r /\
    fst (report world1 args_force_serve) =
      l1 ++ [Copytree "./rnaget-compliance-results"]
         ++ l2 ++ [Run_tests (cfg_server_name cfg);
                   Write_results "./rnaget-compliance-results" true r]
         ++ l3 ++ [Render_html "./rnaget-compliance-results"]
         ++ l4.
Proof.
  split; [reflexivity|].
  exact (report_returned world1 args_force_serve eq_refl).
Defined.

(** X13 at a run without a configuration file. *)
Lemma report_rejects_arguments_witness :
  (not_given (user_config args_no_config) = true \/
   isdigit (uptime args_no_config) = false) /\
  rejected_before_tests (report world0 args_no_config) /\
  forall e, In e (fst (report world0 args_no_config)) ->
    match e with
    | Log _ | Echo_usage | Print _ => True
    | _ => False
    end.
Proof.
  split; [left; reflexivity|].
  apply (report_rejects_arguments world0 args_no_config). left; reflexivity.
Defined.

(** *** When [int(uptime)] raises *)





(** *** Exceptions no handler catches *)


Lemma emit_inl (e : event) (trace trace' : list event) (x : exn) :
  emit e trace = (inl x, trace') -> False.
Proof. discriminate. Qed.




